(** * PublicAPIFetcher (index.py): a shallow embedding and its properties

    The development follows the layout of [index.py]:

    - the Python values the program manipulates: text, decoded JSON,
      exceptions and the few built-ins it calls ([dict.get], [len],
      [str], [format], truthiness, iteration);
    - the class [PublicAPIFetcher]: [__init__], [fetch_data],
      [display_data] and the three formatters;
    - the properties of these operations.

    Console output is a list with one entry per call of [print].  A call
    that may raise returns the exception next to what was printed before
    it was raised. *)

From Stdlib Require Import ZArith NArith List Bool Lia String Ascii.
From Stdlib Require Import DecimalString SpecFloat.
Import ListNotations.

Set Warnings "-register-all".
Local Open Scope string_scope.
Local Open Scope Z_scope.
Local Open Scope list_scope.

(* ================================================================== *)
(** ** Text *)

(** A Python [str] is a sequence of Unicode code points. *)
Definition pystr := list N.

(** Text of a literal of the source (ASCII only). *)
Definition str (s : string) : pystr :=
  List.map N_of_ascii (list_ascii_of_string s).

Fixpoint pystr_eqb (a b : pystr) : bool :=
  match a, b with
  | [], [] => true
  | x :: a', y :: b' => N.eqb x y && pystr_eqb a' b'
  | _, _ => false
  end.

(** [sep.join(parts)] *)
Fixpoint join (sep : pystr) (parts : list pystr) : pystr :=
  match parts with
  | [] => []
  | [p] => p
  | p :: rest => p ++ sep ++ join sep rest
  end.

(** ["-" * n] *)
Definition dashes (n : nat) : pystr := List.repeat 45%N n.

(** [Py_UNICODE_ISSPACE]: the characters [str.strip()] removes. *)
Definition is_space (c : N) : bool :=
  ((9 <=? c) && (c <=? 13) || (28 <=? c) && (c <=? 32)
   || (c =? 133) || (c =? 160) || (c =? 5760)
   || (8192 <=? c) && (c <=? 8202)
   || (c =? 8232) || (c =? 8233) || (c =? 8239) || (c =? 8287)
   || (c =? 12288))%N.

Fixpoint lstrip (s : pystr) : pystr :=
  match s with
  | c :: s' => if is_space c then lstrip s' else s
  | [] => []
  end.

Definition strip (s : pystr) : pystr := rev (lstrip (rev (lstrip s))).

(** Decimal text of an integer, as [str(int)] gives it. *)
Definition dec (z : Z) : pystr := str (NilZero.string_of_int (Z.to_int z)).

Definition hex_digit (n : N) : N :=
  (if n <? 10 then 48 + n else 87 + n)%N.

(** [width] lower-case hexadecimal digits of [n]. *)
Fixpoint hex (width : nat) (n : N) : pystr :=
  match width with
  | O => []
  | S w => hex w (n / 16)%N ++ [hex_digit (n mod 16)%N]
  end.

(* ================================================================== *)
(** ** Decoded JSON

    What [response.json()] returns: [None], [bool], [int], [float], [str],
    [list] and [dict].  A [dict] keeps its keys in insertion order. *)

Inductive json : Type :=
| JNull
| JBool (b : bool)
| JInt (z : Z)
| JFloat (f : spec_float)
| JStr (s : pystr)
| JArray (items : list json)
| JObject (members : list (pystr * json)).

(** [type(v).__name__] *)
Definition type_name (v : json) : pystr :=
  match v with
  | JNull => str "NoneType"
  | JBool _ => str "bool"
  | JInt _ => str "int"
  | JFloat _ => str "float"
  | JStr _ => str "str"
  | JArray _ => str "list"
  | JObject _ => str "dict"
  end.

(** [bool(v)] *)
Definition truthy (v : json) : bool :=
  match v with
  | JNull => false
  | JBool b => b
  | JInt z => negb (z =? 0)
  | JFloat (S754_zero _) => false
  | JFloat _ => true
  | JStr s => negb (pystr_eqb s [])
  | JArray l => match l with [] => false | _ => true end
  | JObject m => match m with [] => false | _ => true end
  end.

(* ================================================================== *)
(** ** Exceptions *)

(** The exception classes that the program can meet: those of [requests],
    and the built-in ones raised by the operations on decoded values. *)
Inductive exn_class : Type :=
| ConnectTimeout | ReadTimeout | Timeout
| SSLError | ConnectionError
| HTTPError | TooManyRedirects
| RequestsJSONDecodeError | InvalidJSONError
| RequestException
| JSONDecodeError | UnicodeEncodeError | ValueError
| AttributeError | TypeError | OverflowError.

Definition exn_class_eqb (a b : exn_class) : bool :=
  match a, b with
  | ConnectTimeout, ConnectTimeout | ReadTimeout, ReadTimeout
  | Timeout, Timeout | SSLError, SSLError
  | ConnectionError, ConnectionError | HTTPError, HTTPError
  | TooManyRedirects, TooManyRedirects
  | RequestsJSONDecodeError, RequestsJSONDecodeError
  | InvalidJSONError, InvalidJSONError
  | RequestException, RequestException
  | JSONDecodeError, JSONDecodeError | ValueError, ValueError
  | UnicodeEncodeError, UnicodeEncodeError
  | AttributeError, AttributeError | TypeError, TypeError
  | OverflowError, OverflowError => true
  | _, _ => false
  end.

(** Direct base classes (below [Exception]), as [requests.exceptions]
    and the built-ins declare them; [UnicodeEncodeError] is a
    [ValueError] through [UnicodeError]. *)
Definition bases (c : exn_class) : list exn_class :=
  match c with
  | ConnectTimeout => [ConnectionError; Timeout]
  | ReadTimeout => [Timeout]
  | Timeout => [RequestException]
  | SSLError => [ConnectionError]
  | ConnectionError => [RequestException]
  | HTTPError => [RequestException]
  | TooManyRedirects => [RequestException]
  | RequestsJSONDecodeError => [InvalidJSONError; JSONDecodeError]
  | InvalidJSONError => [RequestException]
  | JSONDecodeError => [ValueError]
  | UnicodeEncodeError => [ValueError]
  | RequestException | ValueError
  | AttributeError | TypeError | OverflowError => []
  end.

Fixpoint issubclass_upto (depth : nat) (c target : exn_class) : bool :=
  exn_class_eqb c target ||
  match depth with
  | O => false
  | S d => existsb (fun b => issubclass_upto d b target) (bases c)
  end.

(** The hierarchy above is three levels deep. *)
Definition issubclass : exn_class -> exn_class -> bool := issubclass_upto 3.

(** An exception object: its class, [str(e)], and for an exception that
    carries a response ([e.response]) the response's status code. *)
Record exn : Type := mkExn {
  exn_cls : exn_class;
  exn_msg : pystr;
  exn_status : option Z
}.

Definition isinstance (e : exn) (c : exn_class) : bool :=
  issubclass (exn_cls e) c.

Definition attribute_error (v : json) (attr : string) : exn :=
  mkExn AttributeError
    (str "'" ++ type_name v ++ str "' object has no attribute '"
       ++ str attr ++ str "'") None.

(** The result of a call: the exception raised or the value returned. *)
Definition result (A : Type) : Type := (exn + A)%type.

(* ================================================================== *)
(** ** Built-ins on decoded values *)

(** The first binding of [key], as a [dict] built by the decoder has at
    most one. *)
Fixpoint lookup (key : pystr) (m : list (pystr * json)) : option json :=
  match m with
  | [] => None
  | (k, v) :: m' => if pystr_eqb key k then Some v else lookup key m'
  end.

(** [dict.get(key, default)] *)
Definition dict_get (m : list (pystr * json)) (key : string) (default : json)
  : json :=
  match lookup (str key) m with
  | Some v => v
  | None => default
  end.

(** [obj.get(key, default)], for an [obj] that may not be a [dict]. *)
Definition py_get (obj : json) (key : string) (default : json) : result json :=
  match obj with
  | JObject m => inr (dict_get m key default)
  | _ => inl (attribute_error obj "get")
  end.

(** [len(v)] *)
Definition py_len (v : json) : result Z :=
  match v with
  | JArray l => inr (Z.of_nat (List.length l))
  | JObject m => inr (Z.of_nat (List.length m))
  | JStr s => inr (Z.of_nat (List.length s))
  | _ => inl (mkExn TypeError
                (str "object of type '" ++ type_name v ++ str "' has no len()")
                None)
  end.

(** [iter(v)], run to the end: the items a [for] loop over [v] visits. *)
Definition py_iter (v : json) : result (list json) :=
  match v with
  | JArray l => inr l
  | JObject m => inr (List.map (fun kv => JStr (fst kv)) m)
  | JStr s => inr (List.map (fun c => JStr [c]) s)
  | _ => inl (mkExn TypeError
                (str "'" ++ type_name v ++ str "' object is not iterable")
                None)
  end.

(** [enumerate(items, start)] *)
Fixpoint enumerate (start : Z) (items : list json) : list (Z * json) :=
  match items with
  | [] => []
  | x :: rest => (start, x) :: enumerate (start + 1) rest
  end.

(* ================================================================== *)
(** ** Rendering values as text *)

(** What the interpreter takes from its tables and the program only
    calls: the upper-case mapping of a character beyond ASCII (one
    character may become several), the shortest text that reads back as a
    given [float] ([repr(float)]), and whether a character beyond ASCII is
    printable. *)
Class PyRuntime : Type := {
  unicode_upper : N -> pystr;
  float_repr : spec_float -> pystr;
  isprintable : N -> bool
}.

Section Rendering.
Context {RT : PyRuntime}.

(** One character of [repr(str)] inside quotes [quote]; 92 is the
    backslash, followed by [t], [n], [r], [x], [u] or [U]. *)
Definition repr_char (quote : N) (c : N) : pystr :=
  (if (c =? quote) || (c =? 92) then [92; c]
   else if c =? 9 then [92; 116]
   else if c =? 10 then [92; 110]
   else if c =? 13 then [92; 114]
   else if (c <? 32) || (c =? 127) then [92; 120] ++ hex 2 c
   else if c <? 127 then [c]
   else if isprintable c then [c]
   else if c <=? 255 then [92; 120] ++ hex 2 c
   else if c <=? 65535 then [92; 117] ++ hex 4 c
   else [92; 85] ++ hex 8 c)%N.

(** [repr(s)]: single quotes, unless [s] has a single quote and no
    double quote. *)
Definition str_repr (s : pystr) : pystr :=
  let quote :=
    (if existsb (N.eqb 39) s && negb (existsb (N.eqb 34) s)
     then 34 else 39)%N in
  [quote] ++ List.concat (List.map (repr_char quote) s) ++ [quote].

(** [s.upper()], character by character. *)
Definition str_upper (s : pystr) : pystr :=
  List.concat
    (List.map (fun c => if c <? 128
                        then [if (97 <=? c) && (c <=? 122) then c - 32 else c]
                        else unicode_upper c)%N s).

(** [repr(v)] *)
Fixpoint py_repr (v : json) : pystr :=
  match v with
  | JNull => str "None"
  | JBool true => str "True"
  | JBool false => str "False"
  | JInt z => dec z
  | JFloat f => float_repr f
  | JStr s => str_repr s
  | JArray l => str "[" ++ join (str ", ") (List.map py_repr l) ++ str "]"
  | JObject m =>
      str "{"
      ++ join (str ", ")
           (List.map (fun kv => str_repr (fst kv) ++ str ": " ++ py_repr (snd kv)) m)
      ++ str "}"
  end.

(** [str(v)], which is also what [f"{v}"] inserts. *)
Definition py_str (v : json) : pystr :=
  match v with
  | JStr s => s
  | _ => py_repr v
  end.

End Rendering.

(* ================================================================== *)
(** ** [format(x, ",.Nf")] *)

(** [n / d] rounded to the nearest integer, ties to even
    ([0 <= n], [0 < d]). *)
Definition round_half_even (n d : Z) : Z :=
  let q := n / d in
  let r := n mod d in
  if 2 * r >? d then q + 1
  else if 2 * r =? d then (if Z.even q then q else q + 1)
  else q.

(** [float(z)]: the nearest binary64 value, ties to even, or
    [OverflowError] beyond the range. *)
Definition float_of_int (z : Z) : result spec_float :=
  if z =? 0 then inr (S754_zero false)
  else
    let a := Z.abs z in
    let k := Z.max 0 (Z.log2 a + 1 - 53) in
    let q := round_half_even a (2 ^ k) in
    if 2 ^ 1024 <=? q * 2 ^ k
    then inl (mkExn OverflowError (str "int too large to convert to float") None)
    else inr (S754_finite (z <? 0) (Z.to_pos q) k).

(** Commas between groups of three digits, counted from the right. *)
Fixpoint group_from (k : nat) (digits : pystr) : pystr :=
  match digits with
  | [] => []
  | d :: rest =>
      match rest, k with
      | [], _ => [d]
      | _, S O => d :: 44%N :: group_from 3 rest
      | _, _ => d :: group_from (Nat.pred k) rest
      end
  end.

Definition group3 (digits : pystr) : pystr :=
  group_from (S ((List.length digits - 1) mod 3)) digits.

(** Text of [q / 10^prec] with exactly [prec] decimals, [0 <= q]. *)
Definition fixed_point (prec : nat) (q : Z) : pystr :=
  let ds := dec q in
  let ds := List.repeat 48%N (S prec - List.length ds) ++ ds in
  let n := (List.length ds - prec)%nat in
  group3 (firstn n ds)
  ++ match prec with
     | O => []
     | _ => 46%N :: skipn n ds
     end.

(** [format(f, ",.<prec>f")] for a [float]: the exact value of [f]
    rounded to [prec] decimals, ties to even. *)
Definition format_float (prec : nat) (f : spec_float) : pystr :=
  let sign (s : bool) := if s then str "-" else [] in
  match f with
  | S754_nan => str "nan"
  | S754_infinity s => sign s ++ str "inf"
  | S754_zero s => sign s ++ fixed_point prec 0
  | S754_finite s m e =>
      let n := Z.pos m * 10 ^ Z.of_nat prec in
      let q := if 0 <=? e then n * 2 ^ e else round_half_even n (2 ^ (- e)) in
      sign s ++ fixed_point prec q
  end.

(** [isinstance(v, (int, float))]; [bool] is a subclass of [int]. *)
Definition is_int_or_float (v : json) : bool :=
  match v with
  | JBool _ | JInt _ | JFloat _ => true
  | _ => false
  end.

(** [format(v, ",.<prec>f")]: an [int] (or [bool]) is converted to
    [float] first. *)
Definition format_f (prec : nat) (v : json) : result pystr :=
  match v with
  | JFloat f => inr (format_float prec f)
  | JInt z =>
      match float_of_int z with
      | inl e => inl e
      | inr f => inr (format_float prec f)
      end
  | JBool b =>
      match float_of_int (if b then 1 else 0) with
      | inl e => inl e
      | inr f => inr (format_float prec f)
      end
  | JStr _ =>
      inl (mkExn ValueError
             (str "Unknown format code 'f' for object of type 'str'") None)
  | _ => inl (mkExn TypeError
                (str "unsupported format string passed to "
                   ++ type_name v ++ str ".__format__") None)
  end.


(* ================================================================== *)
(** ** Console output and exceptions *)

(** A computation that prints and then returns or raises. *)
Definition io (A : Type) : Type := (list pystr * result A)%type.

Definition ret {A} (a : A) : io A := ([], inr a).

Definition raise {A} (e : exn) : io A := ([], inl e).

Definition bind {A B} (m : io A) (k : A -> io B) : io B :=
  match m with
  | (out, inl e) => (out, inl e)
  | (out, inr a) => let '(out', r) := k a in (out ++ out', r)
  end.

(** [print(line)] on a console that takes the line. *)
Definition print (line : pystr) : io unit := ([line], inr tt).

(** A call that prints nothing. *)
Definition call {A} (r : result A) : io A := ([], r).

(** The console.  [print] writes through the codec of standard output
    and raises [UnicodeEncodeError] on a line that has a character the
    codec cannot encode. *)
Record codec : Type := mkCodec {
  can_encode : N -> bool;
  (** [str(e)] of the error on a line that cannot be encoded *)
  encode_error : pystr -> pystr
}.

Definition encodable (stdout : codec) (line : pystr) : bool :=
  forallb (can_encode stdout) line.

(** The prints of [out] on the console [stdout], for code between whose
    prints no exception is handled: they are written one by one up to the
    first line that cannot be encoded, where [UnicodeEncodeError] is
    raised. *)
Fixpoint written (stdout : codec) (out : list pystr)
  : list pystr * option exn :=
  match out with
  | [] => ([], None)
  | line :: rest =>
      if encodable stdout line
      then let '(done, e) := written stdout rest in (line :: done, e)
      else ([], Some (mkExn UnicodeEncodeError (encode_error stdout line) None))
  end.

(** A computation that handles no exception, run on the console
    [stdout]. *)
Definition on_console {A} (stdout : codec) (m : io A) : io A :=
  match written stdout (fst m) with
  | (done, Some e) => (done, inl e)
  | (done, None) => (done, snd m)
  end.

(** The place of the first character that fails [ok]. *)
Fixpoint first_bad (ok : N -> bool) (line : pystr) (pos : Z) : option (Z * N) :=
  match line with
  | [] => None
  | c :: rest => if ok c then first_bad ok rest (pos + 1) else Some (pos, c)
  end.

(** UTF-8, the codec of standard output unless the environment says
    otherwise: every character but the surrogates U+D800 to U+DFFF. *)
Definition utf8 : codec :=
  let ok (c : N) := negb ((55296 <=? c) && (c <=? 57343))%N in
  mkCodec ok
    (fun line =>
       match first_bad ok line 0 with
       | Some (pos, c) =>
           str "'utf-8' codec can't encode character '" ++ [92%N; 117%N]
             ++ hex 4 c ++ str "' in position " ++ dec pos
             ++ str ": surrogates not allowed"
       | None => []
       end).

Declare Scope io_scope.
Delimit Scope io_scope with io.
Notation "x <- m ;; k" := (bind m (fun x => k))
  (at level 61, m at next level, right associativity) : io_scope.
Notation "m ;; k" := (bind m (fun _ => k))
  (at level 61, right associativity) : io_scope.

(* ================================================================== *)
(** ** The HTTP request

    What [requests.get], [raise_for_status] and [response.json] do is the
    network's choice; a fetch is run against one such outcome. *)

Record response : Type := mkResponse {
  status_code : Z;
  reason : pystr;
  resp_url : pystr;
  (** what [response.json()] returns or raises *)
  body : result json
}.

Inductive http_outcome : Type :=
| GetRaised (e : exn)
| Responded (r : response).

(** [response.raise_for_status()] *)
Definition raise_for_status (r : response) : result unit :=
  let msg (kind : string) :=
    dec (status_code r) ++ str " " ++ str kind ++ str " Error: "
      ++ reason r ++ str " for url: " ++ resp_url r in
  if (400 <=? status_code r) && (status_code r <? 500)
  then inl (mkExn HTTPError (msg "Client") (Some (status_code r)))
  else if (500 <=? status_code r) && (status_code r <? 600)
  then inl (mkExn HTTPError (msg "Server") (Some (status_code r)))
  else inr tt.

(* ================================================================== *)
(** ** class PublicAPIFetcher *)

Module PublicAPIFetcher.

Record api_config : Type := mkConfig {
  url : pystr;
  name : pystr;
  fields : list pystr
}.

(** Available API configurations *)
Definition APIS : list (pystr * api_config) :=
  [ (str "jsonplaceholder",
     mkConfig (str "https://jsonplaceholder.typicode.com/users")
              (str "JSONPlaceholder Users API")
              [str "name"; str "username"; str "email"; str "city"]);
    (str "randomuser",
     mkConfig (str "https://randomuser.me/api/?results=10")
              (str "Random User Generator API")
              [str "name"; str "email"; str "city"; str "country"]);
    (str "coingecko",
     mkConfig (str "https://api.coingecko.com/api/v3/coins/markets?vs_currency=usd&order=market_cap_desc&per_page=10&page=1")
              (str "CoinGecko Cryptocurrency API")
              [str "name"; str "symbol"; str "current_price"; str "market_cap"]) ].

Fixpoint find_api (api_type : pystr) (apis : list (pystr * api_config))
  : option api_config :=
  match apis with
  | [] => None
  | (k, c) :: rest => if pystr_eqb api_type k then Some c else find_api api_type rest
  end.

(** The instance: [self.api_type], [self.api_config], [self.data]
    ([JNull] is [None]). *)
Record fetcher : Type := mkFetcher {
  api_type : pystr;
  config : api_config;
  data : json
}.

Definition set_data (self : fetcher) (v : json) : fetcher :=
  mkFetcher (api_type self) (config self) v.

(** The marks that open the messages: U+2713, U+2717, U+26A0. *)
Definition check_mark : pystr := [10003%N].
Definition cross_mark : pystr := [10007%N].
Definition warning_sign : pystr := [9888%N].

Section Methods.
Context {RT : PyRuntime}.

(** [PublicAPIFetcher(api_type)] *)
Definition __init__ (api_type : pystr) : result fetcher :=
  match find_api api_type APIS with
  | None =>
      inl (mkExn ValueError
             (str "Invalid API type. Choose from: "
                ++ py_repr (JArray (List.map (fun kc => JStr (fst kc)) APIS)))
             None)
  | Some c => inr (mkFetcher api_type c JNull)
  end.

(** The [except] clauses of [fetch_data], tried in order; an exception
    none of them names is raised to the caller. *)
Definition fetch_except (e : exn) : io bool :=
  (if isinstance e Timeout then
     print (cross_mark ++ str " Error: Request timed out. Please check your internet connection.") ;;
     ret false
   else if isinstance e ConnectionError then
     print (cross_mark ++ str " Error: Failed to connect to the API. Please check your internet connection.") ;;
     ret false
   else if isinstance e HTTPError then
     print (cross_mark ++ str " Error: HTTP error occurred: " ++ exn_msg e) ;;
     code <- call match exn_status e with
                  | Some c => inr c
                  | None => inl (attribute_error JNull "status_code")
                  end ;;
     print (str "  Status Code: " ++ dec code) ;;
     ret false
   else if isinstance e RequestException then
     print (cross_mark ++ str " Error: An error occurred while fetching data: " ++ exn_msg e) ;;
     ret false
   else if isinstance e ValueError then
     print (cross_mark ++ str " Error: Failed to parse JSON response: " ++ exn_msg e) ;;
     ret false
   else raise e)%io.

(** The first two lines of [fetch_data]; 10 is the newline that ends
    the second [f]-string. *)
Definition fetch_banner (self : fetcher) : list pystr :=
  [ str "Fetching data from " ++ name (config self) ++ str "...";
    str "URL: " ++ url (config self) ++ [10%N] ].

(** The line that reports [len(self.data)]. *)
Definition success_line (n : Z) : pystr :=
  check_mark ++ str " Successfully fetched " ++ dec n ++ str " records."
    ++ [10%N].

(** The body of the [try] of [fetch_data]: what it printed, how it
    ended, and the instance as it left it. *)
Definition fetch_try (self : fetcher) (net : http_outcome)
  : list pystr * result bool * fetcher :=
  let out := fetch_banner self in
  match net with
  | GetRaised e => (out, inl e, self)
  | Responded r =>
      match raise_for_status r with
      | inl e => (out, inl e, self)
      | inr _ =>
          match body r with
          | inl e => (out, inl e, self)
          | inr json_data =>
              let records :=
                if pystr_eqb (api_type self) (str "randomuser")
                then py_get json_data "results" (JArray [])
                else inr json_data in
              match records with
              | inl e => (out, inl e, self)
              | inr v =>
                  let self' := set_data self v in
                  match py_len (data self') with
                  | inl e => (out, inl e, self')
                  | inr n =>
                      (out ++ [success_line n], inr true, self')
                  end
              end
          end
      end
  end.

(** [self.fetch_data()] against the outcome [net] of the request. *)
Definition fetch_data (self : fetcher) (net : http_outcome)
  : list pystr * result bool * fetcher :=
  match fetch_try self net with
  | (out, inl e, self') =>
      let '(out', r) := fetch_except e in (out ++ out', r, self')
  | done => done
  end.

(** [v.upper()] *)
Definition py_upper (v : json) : result pystr :=
  match v with
  | JStr s => inr (str_upper s)
  | _ => inl (attribute_error v "upper")
  end.

Definition NA : json := JStr (str "N/A").

(** Display JSONPlaceholder user data. *)
Definition _display_user (idx : Z) (user : json) : io unit :=
  (name <- call (py_get user "name" NA) ;;
   username <- call (py_get user "username" NA) ;;
   email <- call (py_get user "email" NA) ;;
   address <- call (py_get user "address" (JObject [])) ;;
   city <- call (py_get address "city" NA) ;;
   print (str "User " ++ dec idx ++ str ":") ;;
   print (str "Name: " ++ py_str name) ;;
   print (str "Username: " ++ py_str username) ;;
   print (str "Email: " ++ py_str email) ;;
   print (str "City: " ++ py_str city) ;;
   print (dashes 24))%io.

(** Display Random User API data. *)
Definition _display_random_user (idx : Z) (user : json) : io unit :=
  (name_obj <- call (py_get user "name" (JObject [])) ;;
   first <- call (py_get name_obj "first" (JStr [])) ;;
   last <- call (py_get name_obj "last" (JStr [])) ;;
   let joined := strip (py_str first ++ str " " ++ py_str last) in
   let name := if truthy (JStr joined) then JStr joined else NA in
   email <- call (py_get user "email" NA) ;;
   location <- call (py_get user "location" (JObject [])) ;;
   city <- call (py_get location "city" NA) ;;
   location' <- call (py_get user "location" (JObject [])) ;;
   country <- call (py_get location' "country" NA) ;;
   print (str "User " ++ dec idx ++ str ":") ;;
   print (str "Name: " ++ py_str name) ;;
   print (str "Email: " ++ py_str email) ;;
   print (str "City: " ++ py_str city) ;;
   print (str "Country: " ++ py_str country) ;;
   print (dashes 24))%io.

(** The argument of the fourth and fifth [print] of [_display_crypto]:
    [f"{label}: ${v:,.<prec>f}" if isinstance(v, (int, float))
     else f"{other}: {v}"]. *)
Definition money_line (label other : string) (prec : nat) (v : json)
  : result pystr :=
  if is_int_or_float v then
    match format_f prec v with
    | inl e => inl e
    | inr amount => inr (str label ++ str ": $" ++ amount)
    end
  else inr (str other ++ str ": " ++ py_str v).

(** Display CoinGecko cryptocurrency data. *)
Definition _display_crypto (idx : Z) (crypto : json) : io unit :=
  (name <- call (py_get crypto "name" NA) ;;
   symbol <- call (py_get crypto "symbol" NA) ;;
   symbol <- call (py_upper symbol) ;;
   price <- call (py_get crypto "current_price" (JInt 0)) ;;
   market_cap <- call (py_get crypto "market_cap" (JInt 0)) ;;
   print (str "Crypto " ++ dec idx ++ str ":") ;;
   print (str "Name: " ++ py_str name) ;;
   print (str "Symbol: " ++ symbol) ;;
   line <- call (money_line "Current Price" "Price" 2 price) ;;
   print line ;;
   line <- call (money_line "Market Cap" "Market Cap" 0 market_cap) ;;
   print line ;;
   print (dashes 24))%io.

(** [limit and displayed_count >= limit] *)
Definition limit_reached (limit : option Z) (displayed_count : Z) : bool :=
  match limit with
  | None => false
  | Some l => negb (l =? 0) && (l <=? displayed_count)
  end.

(** The dispatch of [display_data]: display based on API type. *)
Definition format_record (self : fetcher) (idx : Z) (record : json)
  : io unit :=
  if pystr_eqb (api_type self) (str "jsonplaceholder")
  then _display_user idx record
  else if pystr_eqb (api_type self) (str "randomuser")
  then _display_random_user idx record
  else if pystr_eqb (api_type self) (str "coingecko")
  then _display_crypto idx record
  else ret tt.

(** The two lines of the [except] clause of [display_data]. *)
Definition record_warning (idx : Z) (e : exn) : list pystr :=
  [ warning_sign ++ str " Warning: Error processing record "
      ++ dec idx ++ str ": " ++ exn_msg e;
    dashes 50 ].

Definition no_data_notice : pystr :=
  str "No data available. Please fetch data first.".

Definition no_match_notice : pystr :=
  str "No records matched the filter criteria.".

Section Display.
Variable self : fetcher.
(** [limit]: [None] or an [int]. *)
Variable limit : option Z.
(** [filter_func]: [None] or a function of a record that returns a
    value or raises an [Exception]. *)
Variable filter_func : option (json -> result json).

(** The [try] of one iteration up to the formatter: [false] when the
    filter rejects the record ([continue]), [true] when the record's
    block was printed. *)
Definition display_record (idx : Z) (record : json) : io bool :=
  (rejected <- call match filter_func with
                    | None => inr false
                    | Some f =>
                        match f record with
                        | inl e => inl e
                        | inr v => inr (negb (truthy v))
                        end
                    end ;;
   if rejected : bool then ret false
   else format_record self idx record ;; ret true)%io.

(** The [for] loop from [items] on: what it prints, and
    [displayed_count] when it ends. *)
Fixpoint display_loop (items : list (Z * json)) (displayed_count : Z)
  : list pystr * Z :=
  match items with
  | [] => ([], displayed_count)
  | (idx, record) :: rest =>
      match display_record idx record with
      | (out, inl e) =>
          let '(out', n) := display_loop rest displayed_count in
          (out ++ record_warning idx e ++ out', n)
      | (out, inr false) =>
          let '(out', n) := display_loop rest displayed_count in
          (out ++ out', n)
      | (out, inr true) =>
          let displayed_count := displayed_count + 1 in
          if limit_reached limit displayed_count
          then (out, displayed_count)
          else
            let '(out', n) := display_loop rest displayed_count in
            (out ++ out', n)
      end
  end.

(** [self.display_data(limit, filter_func)] *)
Definition display_data : io unit :=
  if negb (truthy (data self)) then print no_data_notice
  else
    (items <- call (py_iter (data self)) ;;
     let '(out, displayed_count) := display_loop (enumerate 1 items) 0 in
     (out, inr tt) ;;
     if displayed_count =? 0
     then print no_match_notice
     else ret tt)%io.

End Display.

(** [self.get_count()] *)
Definition get_count (self : fetcher) : result Z :=
  if truthy (data self) then py_len (data self) else inr 0.

End Methods.

End PublicAPIFetcher.

Import PublicAPIFetcher.

(* ================================================================== *)
(** ** The entry point *)

(** [s.startswith(prefix)] on texts. *)
Fixpoint starts_with (prefix s : pystr) : bool :=
  match prefix, s with
  | [], _ => true
  | p :: prefix', c :: s' => N.eqb p c && starts_with prefix' s'
  | _ :: _, [] => false
  end.

(** [v.startswith(prefix)] *)
Definition py_startswith (v : json) (prefix : string) : result json :=
  match v with
  | JStr s => inr (JBool (starts_with (str prefix) s))
  | _ => inl (attribute_error v "startswith")
  end.

(** The filter that [main] defines: users whose city starts with 'S'. *)
Definition city_filter (user : json) : result json :=
  match py_get user "address" (JObject []) with
  | inl e => inl e
  | inr address =>
      match py_get address "city" (JStr []) with
      | inl e => inl e
      | inr city => py_startswith city "S"
      end
  end.

(** ["=" * n] *)
Definition equals (n : nat) : pystr := List.repeat 61%N n.

Section EntryPoint.
Context {RT : PyRuntime}.

(** What [main] prints before it builds the fetcher; 10 is the newline
    of the source's ["\n"]. *)
Definition main_header : list pystr :=
  [ equals 70;
    str "PUBLIC API DATA FETCHER - INTERVIEW ASSIGNMENT";
    equals 70;
    [10%N] ++ str "Available APIs:";
    str "1. JSONPlaceholder Users API (Default)";
    str "2. Random User Generator API";
    str "3. CoinGecko Cryptocurrency API";
    equals 70;
    [10%N; 10%N] ++ equals 70;
    str "OPTION 1: JSONPLACEHOLDER USERS API";
    equals 70 ].

(** Main function to execute the API data fetching, against the outcome
    [net] of its one request. *)
Definition main (net : http_outcome) : io unit :=
  ((main_header, inr tt) ;;
   fetcher <- call (__init__ (str "jsonplaceholder")) ;;
   let '(out, res, fetcher) := fetch_data fetcher net in
   fetched <- (out, res) ;;
   if fetched : bool then
     print (str "DISPLAYING ALL USERS:") ;;
     print (dashes 70) ;;
     display_data fetcher None None ;;
     print ([10%N] ++ equals 70) ;;
     print (str "BONUS: USERS FROM CITIES STARTING WITH 'S'") ;;
     print (equals 70) ;;
     display_data fetcher None (Some city_filter) ;;
     print ([10%N] ++ equals 70) ;;
     count <- call (get_count fetcher) ;;
     print (str "Total records processed: " ++ dec count) ;;
     print (equals 70)
   else ret tt)%io.

End EntryPoint.

(* ================================================================== *)
(** * The notions of the statements *)

Section Notions.
Context {RT : PyRuntime}.

(** ** Sessions and requests *)

(** A [dict] literal with ASCII keys. *)
Definition dict (members : list (string * json)) : json :=
  JObject (List.map (fun kv => (str (fst kv), snd kv)) members).

(** The profile identifiers of the registry. *)
Definition supported : list pystr :=
  [str "jsonplaceholder"; str "randomuser"; str "coingecko"].

(** The outcomes of a request that the [except] clauses of [fetch_data]
    name, one constructor per kind of error. *)
Inductive fetch_failure : http_outcome -> Prop :=
| timeout_failure e :
    isinstance e Timeout = true -> fetch_failure (GetRaised e)
| connection_failure e :
    isinstance e ConnectionError = true -> fetch_failure (GetRaised e)
| http_status_error r :
    400 <= status_code r < 600 -> fetch_failure (Responded r)
| transport_error e :
    isinstance e RequestException = true -> isinstance e HTTPError = false ->
    fetch_failure (GetRaised e)
| decode_error r e :
    ~ 400 <= status_code r < 600 -> body r = inl e ->
    isinstance e ValueError = true -> fetch_failure (Responded r).

Definition is_dict (v : json) : bool :=
  match v with
  | JObject _ => true
  | _ => false
  end.

(** The shape that [self.data: Optional[List[Dict]]] announces. *)
Definition unset_or_list_of_dicts (v : json) : bool :=
  match v with
  | JNull => true
  | JArray records => forallb is_dict records
  | _ => false
  end.

(** ** Sequences of fetches *)

(** The fetches of one session against the outcomes [nets], one after
    the other: how each call ended, and the session after the last. *)
Fixpoint fetch_all (self : fetcher) (nets : list http_outcome)
  : list (result bool) * fetcher :=
  match nets with
  | [] => ([], self)
  | net :: rest =>
      let '(_, res, self') := fetch_data self net in
      let '(results, final) := fetch_all self' rest in
      (res :: results, final)
  end.

(** An outcome of the kind the program is written for: a failure that an
    [except] clause names, or a response that is not an HTTP error and
    whose body has the shape of the profile, a list of mappings, inside
    the key [results] for "randomuser". *)
Inductive expected_outcome (api_type : pystr) : http_outcome -> Prop :=
| expected_failure net :
    fetch_failure net -> expected_outcome api_type net
| expected_list r records :
    ~ 400 <= status_code r < 600 -> api_type <> str "randomuser" ->
    body r = inr (JArray records) -> forallb is_dict records = true ->
    expected_outcome api_type (Responded r)
| expected_envelope r m records :
    ~ 400 <= status_code r < 600 -> api_type = str "randomuser" ->
    body r = inr (JObject m) ->
    dict_get m "results" (JArray []) = JArray records ->
    forallb is_dict records = true ->
    expected_outcome api_type (Responded r).

(** ** The display loop *)

(** Whether the filter lets a record through: no filter, or a filter that
    returns a true value. *)
Definition accepts (filter_func : option (json -> result json))
  (record : json) : bool :=
  match filter_func with
  | None => true
  | Some f =>
      match f record with
      | inr v => truthy v
      | inl _ => false
      end
  end.

(** The filter, when there is one, returns on the record. *)
Definition filter_returns (filter_func : option (json -> result json))
  (record : json) : Prop :=
  match filter_func with
  | None => True
  | Some f => exists v, f record = inr v
  end.

(** A predicate as the caller supplies it: a function that returns a
    [bool]. *)
Definition predicate (p : json -> bool) : option (json -> result json) :=
  Some (fun record => inr (JBool (p record))).

(** What the formatter of the session's profile prints for an item of
    [enumerate(self.data, start=1)]. *)
Definition block (self : fetcher) (item : Z * json) : list pystr :=
  fst (format_record self (fst item) (snd item)).

(** The formatter returns on the item. *)
Definition renders (self : fetcher) (item : Z * json) : Prop :=
  snd (format_record self (fst item) (snd item)) = inr tt.

(** The records that a display shows among the accepted ones: all of
    them, or the first [limit]. *)
Definition up_to_limit {A} (limit : option Z) (items : list A) : list A :=
  match limit with
  | None => items
  | Some k => firstn (Z.to_nat k) items
  end.

(** ** Blocks and fields *)

(** [name] as [_display_random_user] computes it from the two parts. *)
Definition full_name (name_obj : list (pystr * json)) : json :=
  let joined :=
    strip (py_str (dict_get name_obj "first" (JStr [])) ++ str " "
             ++ py_str (dict_get name_obj "last" (JStr []))) in
  if truthy (JStr joined) then JStr joined else NA.

(** The first line of a block. *)
Definition heading (self : fetcher) (idx : Z) : pystr :=
  (if pystr_eqb (api_type self) (str "coingecko")
   then str "Crypto " else str "User ") ++ dec idx ++ str ":".

(** ** Amounts *)

(** A decimal digit. *)
Definition is_digit (c : N) : bool := ((48 <=? c) && (c <=? 57))%N.

(** A [float] that is a number: a zero or a finite value. *)
Definition finite_float (f : spec_float) : bool :=
  match f with
  | S754_zero _ | S754_finite _ _ _ => true
  | S754_infinity _ | S754_nan => false
  end.

(** An [int], a [bool] or a [float] that is a number. *)
Definition finite_number (v : json) : bool :=
  match v with
  | JBool _ | JInt _ => true
  | JFloat f => finite_float f
  | _ => false
  end.

(** The text of an amount: after an optional minus sign, digits in
    groups of three behind a first group of one to three, the groups
    joined by commas, then [prec] decimals behind a point when [prec] is
    not 0. *)
Inductive money_text (prec : nat) : pystr -> Prop :=
| money_digits sign first groups decimals :
    sign = [] \/ sign = str "-" ->
    (1 <= List.length first <= 3)%nat ->
    Forall (fun g => List.length g = 3%nat) groups ->
    List.length decimals = prec ->
    Forall (fun c => is_digit c = true)
      (first ++ List.concat groups ++ decimals) ->
    money_text prec
      (sign ++ join (str ",") (first :: groups)
         ++ match prec with
            | O => []
            | _ => str "." ++ decimals
            end).

(** An [int] that [float()] takes: below the midpoint between the
    largest [float] and [2^1024]. *)
Definition fits_float (v : json) : Prop :=
  match v with
  | JInt z => Z.abs z < 2 ^ 1024 - 2 ^ 970
  | _ => True
  end.

(** What a money line shows.  For an [int], a [bool] or a [float] that
    is a number: the label, the dollar sign and the amount as [format]
    gives it, grouped by thousands and with [prec] decimals.  For a
    [float] that is infinite or not a number: the label, the dollar sign
    and "inf", "-inf" or "nan".  For any other value: some label and the
    text of the value. *)
Definition currency_or_raw (label : string) (prec : nat) (v : json)
  (line : pystr) : Prop :=
  match v with
  | JFloat S754_nan => line = str label ++ str ": $nan"
  | JFloat (S754_infinity negative) =>
      line = str label ++ str ": $"
               ++ (if negative then str "-" else []) ++ str "inf"
  | _ =>
      if is_int_or_float v
      then exists amount,
             format_f prec v = inr amount
             /\ money_text prec amount
             /\ line = str label ++ str ": $" ++ amount
      else exists other, line = str other ++ str ": " ++ py_str v
  end.

(** ** Missing fields *)

(** The value at a path of keys, when every key on the way is there. *)
Fixpoint at_path (v : json) (path : list string) : option json :=
  match path with
  | [] => Some v
  | key :: rest =>
      match v with
      | JObject m =>
          match lookup (str key) m with
          | Some x => at_path x rest
          | None => None
          end
      | _ => None
      end
  end.

(** The key is absent or bound to a [dict]. *)
Definition absent_or_dict (m : list (pystr * json)) (key : string) : Prop :=
  exists d, dict_get m key (JObject []) = JObject d.

(** The key is absent or bound to a [str]. *)
Definition absent_or_str (m : list (pystr * json)) (key : string) : Prop :=
  exists s, dict_get m key NA = JStr s.

End Notions.

(* ================================================================== *)
(** * Records, sessions and a runtime for the examples *)

(** The record of the example. *)
Definition bitcoin : json :=
  dict [ ("name", JStr (str "Bitcoin"));
         ("symbol", JStr (str "btc"));
         ("current_price", JFloat (S754_finite false 86501 (-1)));
         ("market_cap", JInt 850000000) ].

(** The record of the jsonplaceholder example. *)
Definition leanne : json :=
  dict [ ("name", JStr (str "Leanne Graham"));
         ("username", JStr (str "Bret"));
         ("email", JStr (str "a@b.com"));
         ("address", dict [("city", JStr (str "Gwenborough"))]) ].

(** A jsonplaceholder record without the key [address]. *)
Definition no_address : json :=
  dict [ ("name", JStr (str "Ervin Howell"));
         ("username", JStr (str "Antonette"));
         ("email", JStr (str "e@h.org")) ].

(** A jsonplaceholder record whose city begins with S. *)
Definition sam : json :=
  dict [ ("name", JStr (str "Sam Hill"));
         ("username", JStr (str "sam"));
         ("email", JStr (str "s@h.io"));
         ("address", dict [("city", JStr (str "South Elvis"))]) ].


(** A predicate on records: there is no key [address]. *)
Definition lacks_address (record : json) : bool :=
  match at_path record ["address"] with
  | None => true
  | Some _ => false
  end.

(** The session that [PublicAPIFetcher(api_type)] builds, holding
    [records]. *)
Definition session (api_type : string) (records : json) : fetcher :=
  match find_api (str api_type) APIS with
  | Some c => mkFetcher (str api_type) c records
  | None => mkFetcher (str api_type) (mkConfig [] [] []) records
  end.

(** A response with status 200 and the decoded body [j]. *)
Definition ok_response (self : fetcher) (j : json) : response :=
  mkResponse 200 (str "OK") (url (config self)) (inr j).

(** A response with status 500. *)
Definition server_error (self : fetcher) : response :=
  mkResponse 500 (str "Internal Server Error") (url (config self))
    (inl (mkExn RequestsJSONDecodeError
            (str "Expecting value: line 1 column 1 (char 0)") None)).

(** A coingecko record whose symbol is [null]. *)
Definition delisted : json :=
  dict [ ("name", JStr (str "Bitcoin"));
         ("symbol", JNull);
         ("current_price", JFloat (S754_finite false 86501 (-1)));
         ("market_cap", JInt 850000000) ].

(** [s] without its leading zeros, but for the last character. *)
Fixpoint lstrip_zeros (s : pystr) : pystr :=
  match s with
  | c :: (_ :: _) as s' => if (c =? 48)%N then lstrip_zeros s' else s
  | _ => s
  end.

(** The exact decimal expansion of a [float], which is its [repr] when
    the expansion is short (integers and halves of moderate size). *)
Definition exact_repr (f : spec_float) : pystr :=
  let sign (s : bool) := if s then str "-" else [] in
  match f with
  | S754_nan => str "nan"
  | S754_infinity s => sign s ++ str "inf"
  | S754_zero s => sign s ++ str "0.0"
  | S754_finite s m e =>
      if 0 <=? e then sign s ++ dec (Z.pos m * 2 ^ e) ++ str ".0"
      else
        let k := Z.to_nat (- e) in
        let ds := dec (Z.pos m * 5 ^ (- e)) in
        let ds := List.repeat 48%N (S k - List.length ds) ++ ds in
        let n := (List.length ds - k)%nat in
        sign s ++ firstn n ds ++ str "."
          ++ rev (lstrip_zeros (rev (skipn n ds)))
  end.

(** A runtime that is exact on ASCII text and on the floats above. *)
Definition example_runtime : PyRuntime :=
  {| unicode_upper := fun c => [c];
     float_repr := exact_repr;
     isprintable := fun _ => true |}.


(* ================================================================== *)
(** * Properties *)

(** ** Text and the exception hierarchy *)

Lemma pystr_eqb_spec (a b : pystr) : reflect (a = b) (pystr_eqb a b).
Proof.
  revert b; induction a as [|x a IH]; intros [|y b]; simpl;
    try (constructor; congruence).
  destruct (N.eqb_spec x y) as [->|Hxy]; simpl.
  - destruct (IH b) as [->|Hab]; constructor; congruence.
  - constructor; congruence.
Qed.

Lemma pystr_eqb_refl (a : pystr) : pystr_eqb a a = true.
Proof. destruct (pystr_eqb_spec a a); congruence. Qed.

Lemma pystr_eqb_neq (a b : pystr) : a <> b -> pystr_eqb a b = false.
Proof. destruct (pystr_eqb_spec a b); congruence. Qed.

Lemma supported_keys : supported = List.map fst APIS.
Proof. reflexivity. Qed.

(** A response whose status [raise_for_status] lets through. *)
Lemma raise_for_status_ok (r : response) :
  ~ 400 <= status_code r < 600 -> raise_for_status r = inr tt.
Proof.
  intros H; unfold raise_for_status.
  destruct (400 <=? status_code r) eqn:E1, (status_code r <? 500) eqn:E2,
    (500 <=? status_code r) eqn:E3, (status_code r <? 600) eqn:E4;
    simpl; try reflexivity; exfalso; apply H; lia.
Qed.

Lemma raise_for_status_error (r : response) :
  400 <= status_code r < 600 ->
  exists msg, raise_for_status r = inl (mkExn HTTPError msg (Some (status_code r))).
Proof.
  intros H; unfold raise_for_status.
  destruct (400 <=? status_code r) eqn:E1, (status_code r <? 500) eqn:E2,
    (500 <=? status_code r) eqn:E3, (status_code r <? 600) eqn:E4;
    simpl; eauto; exfalso; lia.
Qed.

(** An exception that an [except] clause names is turned into [False]. *)
Lemma fetch_except_false (e : exn) :
  isinstance e RequestException = true \/ isinstance e ValueError = true ->
  (isinstance e HTTPError = true -> exn_status e <> None) ->
  exists out, fetch_except e = (out, inr false).
Proof.
  destruct e as [c m s]; intros [H|H] Hs; destruct c; cbn in *;
    try discriminate; eauto;
    (destruct s as [code|]; [cbn; eauto | exfalso; now apply Hs]).
Qed.

Section Properties.
Context {RT : PyRuntime}.

(* ------------------------------------------------------------------ *)
(** ** Construction *)

Lemma find_api_unsupported (t : pystr) :
  ~ In t supported -> find_api t APIS = None.
Proof.
  intros H; unfold APIS, find_api.
  rewrite !pystr_eqb_neq; [reflexivity | | | ];
    intros ->; apply H; simpl; auto.
Qed.

(** C8. Constructing a session with one of the three profile identifiers
    succeeds and gives a session bound to that profile with no records;
    with any other identifier it raises [ValueError], the program's
    invalid-configuration error, whose message lists the three valid
    identifiers. *)
Theorem init_supported_or_invalid (t : pystr) :
  (In t supported ->
   exists c, find_api t APIS = Some c /\ __init__ t = inr (mkFetcher t c JNull))
  /\
  (~ In t supported ->
   __init__ t =
     inl (mkExn ValueError
            (str "Invalid API type. Choose from: ['jsonplaceholder', 'randomuser', 'coingecko']")
            None)).
Proof.
  split.
  - intros [<-|[<-|[<-|[]]]]; eexists; split; reflexivity.
  - intros H; unfold __init__; rewrite (find_api_unsupported t H).
    do 2 f_equal.
Qed.

(* ------------------------------------------------------------------ *)
(** ** Fetching *)

(** What a fetch leaves in the store when the request failed. *)
Lemma fetch_failure_returns_false (self : fetcher) (net : http_outcome) :
  fetch_failure net -> exists out, fetch_data self net = (out, inr false, self).
Proof.
  intros H; unfold fetch_data, fetch_try; destruct H as
    [e H | e H | r H | e H Hh | r e Hs Hb H].
  - destruct (fetch_except_false e) as [out E].
    + left; destruct e as [[] m s]; cbn in *; congruence.
    + destruct e as [[] m s]; cbn in *; congruence.
    + rewrite E; eauto.
  - destruct (fetch_except_false e) as [out E].
    + left; destruct e as [[] m s]; cbn in *; congruence.
    + destruct e as [[] m s]; cbn in *; congruence.
    + rewrite E; eauto.
  - destruct (raise_for_status_error r H) as [msg ->].
    destruct (fetch_except_false (mkExn HTTPError msg (Some (status_code r))))
      as [out E]; [left; reflexivity | cbn; congruence |].
    rewrite E; eauto.
  - destruct (fetch_except_false e) as [out E]; [auto | congruence |].
    rewrite E; eauto.
  - rewrite (raise_for_status_ok r Hs), Hb.
    destruct (fetch_except_false e) as [out E].
    + auto.
    + destruct e as [[] m s]; cbn in *; congruence.
    + rewrite E; eauto.
Qed.

(** C2, as the code has it.  A fetch that fails (time-out, connection
    failure, HTTP status 4xx or 5xx, other transport error, undecodable
    body) returns [False] and leaves the session as it was: the record
    store keeps the value it had.  When the store was unset, a display
    after the failing fetch prints the no-data notice and nothing else. *)
Theorem fetch_failure_keeps_store (self : fetcher) (net : http_outcome) :
  fetch_failure net ->
  exists out self',
    fetch_data self net = (out, inr false, self')
    /\ self' = self
    /\ (data self = JNull ->
        forall limit filter_func,
          display_data self' limit filter_func = ([no_data_notice], inr tt)).
Proof.
  intros H; destruct (fetch_failure_returns_false self net H) as [out E].
  exists out, self; repeat split; auto.
  intros Hd limit f; unfold display_data; rewrite Hd; reflexivity.
Qed.

Lemma fetch_data_decoded (self : fetcher) (r : response) (j v : json) :
  ~ 400 <= status_code r < 600 -> body r = inr j ->
  (if pystr_eqb (api_type self) (str "randomuser")
   then py_get j "results" (JArray []) else inr j) = inr v ->
  fetch_data self (Responded r) =
    match py_len v with
    | inl e =>
        let '(out, res) := fetch_except e in
        (fetch_banner self ++ out, res, set_data self v)
    | inr n => (fetch_banner self ++ [success_line n], inr true, set_data self v)
    end.
Proof.
  intros Hs Hb Hv; unfold fetch_data, fetch_try.
  rewrite (raise_for_status_ok r Hs), Hb, Hv; simpl.
  destruct (py_len v); reflexivity.
Qed.

(** [len] raises nothing an [except] clause of [fetch_data] names. *)
Lemma py_len_error_escapes (v : json) (e : exn) :
  py_len v = inl e -> fetch_except e = ([], inl e).
Proof. destruct v; simpl; intros H; inversion H; reflexivity. Qed.

(** C3, as the code has it.  On a 2xx response whose body decodes to
    [j]: with the profile "randomuser" and [j] an object, the store
    receives the value of the key [results], or the empty list when the
    key is absent; with the two other profiles the store receives [j]
    itself.  Whenever the stored value has a length [n] (a list, a
    mapping or a text), the fetch prints its two opening lines and then
    the line "(check mark) Successfully fetched [n] records." and returns
    [True]; and every fetch that returns [True] has printed exactly
    these lines for the length of what it stored. *)
Theorem fetch_success_stores (self : fetcher) (r : response) (j : json) :
  200 <= status_code r < 300 -> body r = inr j ->
  let printed (n : Z) :=
    [ str "Fetching data from " ++ name (config self) ++ str "...";
      str "URL: " ++ url (config self) ++ [10%N];
      [10003%N] ++ str " Successfully fetched " ++ dec n ++ str " records."
        ++ [10%N] ] in
  (api_type self = str "randomuser" -> forall m, j = JObject m ->
   let v := dict_get m "results" (JArray []) in
   data (snd (fetch_data self (Responded r))) = v
   /\ forall n, py_len v = inr n ->
        fetch_data self (Responded r) = (printed n, inr true, set_data self v))
  /\
  (api_type self <> str "randomuser" ->
   data (snd (fetch_data self (Responded r))) = j
   /\ forall n, py_len j = inr n ->
        fetch_data self (Responded r) = (printed n, inr true, set_data self j))
  /\
  (forall out self', fetch_data self (Responded r) = (out, inr true, self') ->
   exists n, py_len (data self') = inr n
             /\ out = printed n
             /\ (data self' = j
                 \/ exists m, j = JObject m
                              /\ data self' = dict_get m "results" (JArray []))).
Proof.
  intros Hs Hb printed.
  assert (Hok : ~ 400 <= status_code r < 600) by lia.
  split; [|split].
  - intros Ht m -> v.
    assert (Hv : (if pystr_eqb (api_type self) (str "randomuser")
                  then py_get (JObject m) "results" (JArray [])
                  else inr (JObject m)) = inr v).
    { rewrite Ht, pystr_eqb_refl; reflexivity. }
    rewrite (fetch_data_decoded self r _ v Hok Hb Hv).
    split.
    + destruct (py_len v) as [e|n] eqn:E; [|reflexivity].
      rewrite (py_len_error_escapes v e E); reflexivity.
    + intros n ->; reflexivity.
  - intros Ht.
    assert (Hv : (if pystr_eqb (api_type self) (str "randomuser")
                  then py_get j "results" (JArray [])
                  else inr j) = inr j).
    { rewrite (pystr_eqb_neq _ _ Ht); reflexivity. }
    rewrite (fetch_data_decoded self r _ j Hok Hb Hv).
    split.
    + destruct (py_len j) as [e|n] eqn:E; [|reflexivity].
      rewrite (py_len_error_escapes j e E); reflexivity.
    + intros n ->; reflexivity.
  - intros out self'; unfold fetch_data, fetch_try.
    rewrite (raise_for_status_ok r Hok), Hb.
    destruct (if pystr_eqb (api_type self) (str "randomuser")
              then py_get j "results" (JArray []) else inr j) as [e|v] eqn:Ev.
    + destruct (pystr_eqb (api_type self) (str "randomuser")); [|discriminate].
      destruct j; simpl in Ev; inversion Ev; subst; cbn; discriminate.
    + destruct (py_len (data (set_data self v))) as [e|n] eqn:E.
      * simpl in E; rewrite (py_len_error_escapes v e E); discriminate.
      * intros H; inversion H; subst; exists n.
        split; [exact E | split; [reflexivity|]].
        destruct (pystr_eqb (api_type self) (str "randomuser")).
        -- right; destruct j; simpl in Ev; inversion Ev; eauto.
        -- left; inversion Ev; reflexivity.
Qed.

(** C1, on the input where it fails.  A session of profile "randomuser"
    receives status 200 with the JSON body [[]]: [json_data.get] raises
    [AttributeError], which no [except] clause of [fetch_data] names, so
    the caller receives the exception instead of a boolean.  With profile
    "jsonplaceholder" and the body [null], [len(self.data)] raises
    [TypeError] in the same way. *)
Theorem fetch_data_raises_on_unexpected_body :
  (exists self,
     __init__ (str "randomuser") = inr self
     /\ fetch_data self
          (Responded (mkResponse 200 (str "OK") (url (config self)) (inr (JArray []))))
        = (fetch_banner self,
           inl (mkExn AttributeError (str "'list' object has no attribute 'get'") None),
           self))
  /\
  (exists self,
     __init__ (str "jsonplaceholder") = inr self
     /\ fetch_data self
          (Responded (mkResponse 200 (str "OK") (url (config self)) (inr JNull)))
        = (fetch_banner self,
           inl (mkExn TypeError (str "object of type 'NoneType' has no len()") None),
           self)).
Proof.
  split; eexists; (split; [reflexivity|]); vm_compute; reflexivity.
Qed.

(** C9, on the input where it fails.  A session of profile
    "jsonplaceholder" receives status 200 with the JSON object
    [{"error": "rate limited"}]: the fetch succeeds, reports one record
    and stores the object itself, which is neither unset nor a list of
    mappings.  The same happens with the body [[1, 2]], a list whose
    items are not mappings. *)
Theorem fetch_data_stores_any_sized_body :
  exists self,
    __init__ (str "jsonplaceholder") = inr self
    /\ (let body := dict [("error", JStr (str "rate limited"))] in
        fetch_data self
          (Responded (mkResponse 200 (str "OK") (url (config self)) (inr body)))
        = (fetch_banner self ++ [success_line 1], inr true, set_data self body)
        /\ unset_or_list_of_dicts (data (set_data self body)) = false)
    /\ (let body := JArray [JInt 1; JInt 2] in
        fetch_data self
          (Responded (mkResponse 200 (str "OK") (url (config self)) (inr body)))
        = (fetch_banner self ++ [success_line 2], inr true, set_data self body)
        /\ unset_or_list_of_dicts (data (set_data self body)) = false).
Proof.
  eexists; split; [reflexivity|]; split; split; vm_compute; reflexivity.
Qed.

(* ------------------------------------------------------------------ *)
(** ** Displaying *)

Lemma bind_call {A B} (a : A) (k : A -> io B) : bind (call (inr a)) k = k a.
Proof. unfold bind, call; destruct (k a); reflexivity. Qed.

Lemma bind_call_raise {A B} (e : exn) (k : A -> io B) :
  bind (call (inl e)) k = ([], inl e).
Proof. reflexivity. Qed.

Lemma display_record_accepted self filter_func idx record :
  accepts filter_func record = true ->
  display_record self filter_func idx record =
    match format_record self idx record with
    | (out, inl e) => (out, inl e)
    | (out, inr _) => (out, inr true)
    end.
Proof.
  intros H; unfold display_record, accepts in *.
  destruct filter_func as [f|].
  - destruct (f record) as [e|v]; [discriminate|].
    rewrite H; simpl negb; rewrite bind_call.
    destruct (format_record self idx record) as [out [e|[]]]; simpl;
      [reflexivity | rewrite app_nil_r; reflexivity].
  - rewrite bind_call.
    destruct (format_record self idx record) as [out [e|[]]]; simpl;
      [reflexivity | rewrite app_nil_r; reflexivity].
Qed.

Lemma display_record_rejected self filter_func idx record :
  accepts filter_func record = false -> filter_returns filter_func record ->
  display_record self filter_func idx record = ([], inr false).
Proof.
  unfold accepts, filter_returns, display_record.
  destruct filter_func as [f|]; [|discriminate].
  intros H [v Hv]; rewrite Hv in *; rewrite H; reflexivity.
Qed.

Lemma limit_reached_zero (n : Z) : limit_reached (Some 0) n = false.
Proof. reflexivity. Qed.

Lemma display_loop_limit_zero self filter_func items n :
  display_loop self (Some 0) filter_func items n
  = display_loop self None filter_func items n.
Proof.
  revert n; induction items as [|[idx record] rest IH]; intros n; simpl;
    [reflexivity|].
  destruct (display_record self filter_func idx record) as [out [e|[|]]];
    rewrite ?IH; reflexivity.
Qed.

Lemma display_data_zero_is_none self filter_func :
  display_data self (Some 0) filter_func = display_data self None filter_func.
Proof.
  unfold display_data.
  destruct (negb (truthy (data self))); [reflexivity|].
  destruct (py_iter (data self)) as [e|items]; [reflexivity|].
  rewrite !bind_call, display_loop_limit_zero; reflexivity.
Qed.

Lemma enumerate_app start xs ys :
  enumerate start (xs ++ ys)
  = enumerate start xs ++ enumerate (start + Z.of_nat (List.length xs)) ys.
Proof.
  revert start; induction xs as [|x xs IH]; intros start; simpl.
  - f_equal; lia.
  - rewrite IH; do 3 f_equal; lia.
Qed.

Lemma enumerate_length start xs :
  List.length (enumerate start xs) = List.length xs.
Proof. revert start; induction xs; intros; simpl; auto. Qed.

Lemma enumerate_nth start xs i x :
  nth_error xs i = Some x ->
  nth_error (enumerate start xs) i = Some (start + Z.of_nat i, x).
Proof.
  revert start i; induction xs as [|y xs IH]; intros start [|i] H;
    simpl in *; try discriminate.
  - inversion H; subst; do 2 f_equal; lia.
  - rewrite (IH _ _ H); do 2 f_equal; lia.
Qed.

(** Without a limit the loop over a concatenation is the loop over the
    first part followed by the loop over the second. *)
Lemma display_loop_app self filter_func xs ys n :
  display_loop self None filter_func (xs ++ ys) n =
    let '(out1, n1) := display_loop self None filter_func xs n in
    let '(out2, n2) := display_loop self None filter_func ys n1 in
    (out1 ++ out2, n2).
Proof.
  revert n; induction xs as [|[idx record] xs IH]; intros n; simpl.
  - destruct (display_loop self None filter_func ys n); reflexivity.
  - destruct (display_record self filter_func idx record) as [out [e|[|]]];
      rewrite IH;
      destruct (display_loop self None filter_func xs _) as [out1 n1];
      destruct (display_loop self None filter_func ys n1) as [out2 n2];
      rewrite <- ?app_assoc; reflexivity.
Qed.

(** The loop shows the accepted records, in order, until the limit. *)
Lemma display_loop_shown self filter_func items :
  Forall (fun item => filter_returns filter_func (snd item)) items ->
  let accepted := List.filter (fun item => accepts filter_func (snd item)) items in
  (forall n,
     Forall (renders self) accepted ->
     display_loop self None filter_func items n
     = (flat_map (block self) accepted, n + Z.of_nat (List.length accepted)))
  /\
  (forall k n, 0 <= n < k ->
     Forall (renders self) (firstn (Z.to_nat (k - n)) accepted) ->
     display_loop self (Some k) filter_func items n
     = (flat_map (block self) (firstn (Z.to_nat (k - n)) accepted),
        n + Z.of_nat (List.length (firstn (Z.to_nat (k - n)) accepted)))).
Proof.
  induction 1 as [|[idx record] rest Hret _ [IHnone IHsome]]; simpl.
  - split; intros; simpl.
    + f_equal; lia.
    + rewrite firstn_nil; simpl; f_equal; lia.
  - destruct (accepts filter_func record) eqn:Hacc; simpl.
    + split.
      * intros n Hall; inversion Hall as [|? ? Hr Hrest]; subst.
        rewrite (display_record_accepted _ _ _ _ Hacc).
        unfold renders in Hr; simpl in Hr; unfold block at 1; simpl.
        destruct (format_record self idx record) as [out [e|[]]];
          simpl in *; [discriminate|].
        rewrite (IHnone (n + 1) Hrest); f_equal; lia.
      * intros k n Hn.
        replace (Z.to_nat (k - n)) with (S (Z.to_nat (k - (n + 1)))) by lia.
        simpl; intros Hall; inversion Hall as [|? ? Hr Hrest]; subst.
        rewrite (display_record_accepted _ _ _ _ Hacc).
        unfold renders in Hr; simpl in Hr; unfold block at 1; simpl.
        destruct (format_record self idx record) as [out [e|[]]];
          simpl in *; [discriminate|].
        destruct (Z.eqb_spec k 0) as [->|Hk0]; [lia|]; simpl.
        destruct (Z.leb_spec k (n + 1)) as [Hle|Hlt].
        -- replace (k - (n + 1)) with 0 by lia; simpl.
           rewrite app_nil_r; reflexivity.
        -- rewrite (IHsome k (n + 1)); [f_equal; lia | lia | exact Hrest].
    + split.
      * intros n Hall.
        rewrite (display_record_rejected _ _ _ _ Hacc Hret).
        rewrite (IHnone n Hall); reflexivity.
      * intros k n Hn Hall.
        rewrite (display_record_rejected _ _ _ _ Hacc Hret).
        rewrite (IHsome k n Hn Hall); reflexivity.
Qed.

(* ------------------------------------------------------------------ *)
(** ** The formatters, case by case *)

Lemma display_user_not_dict idx v :
  is_dict v = false -> _display_user idx v = ([], inl (attribute_error v "get")).
Proof. destruct v; simpl; intros H; try discriminate; reflexivity. Qed.

Lemma display_user_dict idx m :
  _display_user idx (JObject m) =
    match dict_get m "address" (JObject []) with
    | JObject address =>
        ([ str "User " ++ dec idx ++ str ":";
           str "Name: " ++ py_str (dict_get m "name" NA);
           str "Username: " ++ py_str (dict_get m "username" NA);
           str "Email: " ++ py_str (dict_get m "email" NA);
           str "City: " ++ py_str (dict_get address "city" NA);
           dashes 24 ], inr tt)
    | v => ([], inl (attribute_error v "get"))
    end.
Proof.
  unfold _display_user; simpl py_get; rewrite !bind_call.
  destruct (dict_get m "address" (JObject [])); reflexivity.
Qed.

Lemma display_random_user_not_dict idx v :
  is_dict v = false ->
  _display_random_user idx v = ([], inl (attribute_error v "get")).
Proof. destruct v; simpl; intros H; try discriminate; reflexivity. Qed.

Lemma display_random_user_dict idx m :
  _display_random_user idx (JObject m) =
    match dict_get m "name" (JObject []) with
    | JObject name_obj =>
        match dict_get m "location" (JObject []) with
        | JObject location =>
            ([ str "User " ++ dec idx ++ str ":";
               str "Name: " ++ py_str (full_name name_obj);
               str "Email: " ++ py_str (dict_get m "email" NA);
               str "City: " ++ py_str (dict_get location "city" NA);
               str "Country: " ++ py_str (dict_get location "country" NA);
               dashes 24 ], inr tt)
        | v => ([], inl (attribute_error v "get"))
        end
    | v => ([], inl (attribute_error v "get"))
    end.
Proof.
  unfold _display_random_user; simpl py_get; rewrite !bind_call.
  destruct (dict_get m "name" (JObject [])); try reflexivity.
  simpl py_get; rewrite !bind_call.
  destruct (dict_get m "location" (JObject [])); reflexivity.
Qed.

Lemma display_crypto_not_dict idx v :
  is_dict v = false -> _display_crypto idx v = ([], inl (attribute_error v "get")).
Proof. destruct v; simpl; intros H; try discriminate; reflexivity. Qed.

Lemma display_crypto_dict idx m :
  _display_crypto idx (JObject m) =
    match dict_get m "symbol" NA with
    | JStr symbol =>
        let top :=
          [ str "Crypto " ++ dec idx ++ str ":";
            str "Name: " ++ py_str (dict_get m "name" NA);
            str "Symbol: " ++ str_upper symbol ] in
        match money_line "Current Price" "Price" 2
                (dict_get m "current_price" (JInt 0)) with
        | inl e => (top, inl e)
        | inr price_line =>
            match money_line "Market Cap" "Market Cap" 0
                    (dict_get m "market_cap" (JInt 0)) with
            | inl e => (top ++ [price_line], inl e)
            | inr cap_line => (top ++ [price_line; cap_line; dashes 24], inr tt)
            end
        end
    | v => ([], inl (attribute_error v "upper"))
    end.
Proof.
  unfold _display_crypto; simpl py_get; rewrite !bind_call.
  destruct (dict_get m "symbol" NA); try reflexivity.
  simpl py_upper; rewrite !bind_call.
  destruct (money_line "Current Price" "Price" 2 _); [reflexivity|].
  destruct (money_line "Market Cap" "Market Cap" 0 _); reflexivity.
Qed.

(** A block that a formatter completes is the heading with the record's
    index, four field lines and the separator. *)
Lemma block_shape self idx record :
  In (api_type self) supported ->
  snd (format_record self idx record) = inr tt ->
  exists l1 l2 l3 l4,
    fst (format_record self idx record)
    = [heading self idx; l1; l2; l3; l4; dashes 24].
Proof.
  unfold format_record, heading.
  intros [<-|[<-|[<-|[]]]]; cbn [pystr_eqb]; simpl;
    destruct record as [| | | | |?|m];
    try (cbn; discriminate).
  - rewrite display_user_dict.
    destruct (dict_get m "address" (JObject [])); simpl; try discriminate; eauto.
  - rewrite display_random_user_dict.
    destruct (dict_get m "name" (JObject [])); simpl; try discriminate.
    destruct (dict_get m "location" (JObject [])); simpl; try discriminate; eauto.
  - rewrite display_crypto_dict.
    destruct (dict_get m "symbol" NA); simpl; try discriminate.
    destruct (money_line "Current Price" "Price" 2 _); simpl; try discriminate.
    destruct (money_line "Market Cap" "Market Cap" 0 _); simpl; try discriminate.
    eauto.
Qed.

(* ------------------------------------------------------------------ *)
(** ** The display loop *)

Lemma predicate_returns p items :
  Forall (fun item : Z * json => filter_returns (predicate p) (snd item)) items.
Proof. apply Forall_forall; intros item _; simpl; eauto. Qed.

Lemma no_filter_returns items :
  Forall (fun item : Z * json => filter_returns None (snd item)) items.
Proof. apply Forall_forall; intros item _; exact I. Qed.

Lemma filter_all {A} (l : list A) : List.filter (fun _ => true) l = l.
Proof. induction l; simpl; congruence. Qed.

Lemma display_data_list self limit filter_func records out n :
  data self = JArray records -> records <> [] ->
  display_loop self limit filter_func (enumerate 1 records) 0 = (out, n) ->
  display_data self limit filter_func
  = (out ++ (if n =? 0 then [no_match_notice] else []), inr tt).
Proof.
  intros Hd Hne Hloop; unfold display_data; rewrite Hd.
  destruct records as [|r rs]; [congruence|].
  simpl truthy; simpl negb; cbv iota.
  simpl py_iter; rewrite bind_call, Hloop.
  destruct (n =? 0); simpl; rewrite ?app_nil_r; reflexivity.
Qed.

(** C4. For a stored non-empty list of records:
    - with no predicate and no limit, when no formatter raises, the
      display prints exactly the blocks of the records, in order, the
      block at position [i] (from 0) being headed by the index [i + 1];
    - with a limit [0 < k < len(records)] and no predicate, when no
      formatter raises on the first [k] records, it prints exactly their
      [k] blocks and nothing for the records after them, whatever they
      are;
    - with a predicate and any positive limit or none, the records the
      predicate rejects are skipped: what is printed, what counts towards
      the limit and the displayed count are those of the accepted
      records alone. *)
Theorem display_data_blocks (self : fetcher) (records : list json) :
  data self = JArray records -> records <> [] ->
  (Forall (renders self) (enumerate 1 records) ->
   display_data self None None
   = (flat_map (block self) (enumerate 1 records), inr tt)
   /\ (In (api_type self) supported ->
       forall i record, nth_error records i = Some record ->
       exists l1 l2 l3 l4,
         block self (Z.of_nat i + 1, record)
         = [heading self (Z.of_nat i + 1); l1; l2; l3; l4; dashes 24]))
  /\
  (forall k, 0 < k < Z.of_nat (List.length records) ->
   Forall (renders self) (firstn (Z.to_nat k) (enumerate 1 records)) ->
   display_data self (Some k) None
   = (flat_map (block self) (firstn (Z.to_nat k) (enumerate 1 records)), inr tt))
  /\
  (forall p limit,
   (limit = None \/ exists k, limit = Some k /\ 0 < k) ->
   let accepted :=
     List.filter (fun item => p (snd item)) (enumerate 1 records) in
   let shown := up_to_limit limit accepted in
   Forall (renders self) shown ->
   display_loop self limit (predicate p) (enumerate 1 records) 0
   = (flat_map (block self) shown, Z.of_nat (List.length shown))
   /\ display_data self limit (predicate p)
      = (flat_map (block self) shown
           ++ (if Nat.eqb (List.length shown) 0 then [no_match_notice] else []),
         inr tt)).
Proof.
  intros Hd Hne.
  assert (Hlen : (0 < List.length records)%nat)
    by (destruct records; [congruence | simpl; lia]).
  split; [|split].
  - intros Hall; split.
    + destruct (display_loop_shown self None (enumerate 1 records)
                  (no_filter_returns _)) as [Hnone _].
      simpl in Hnone; rewrite filter_all in Hnone.
      rewrite (display_data_list self None None records _ _ Hd Hne
                 (Hnone 0 Hall)).
      rewrite enumerate_length.
      destruct (Z.eqb_spec (0 + Z.of_nat (List.length records)) 0); [lia|].
      rewrite app_nil_r; reflexivity.
    + intros Hsup i record Hi.
      apply (block_shape self (Z.of_nat i + 1) record Hsup).
      pose proof (enumerate_nth 1 records i record Hi) as Hnth.
      apply nth_error_In in Hnth.
      rewrite Forall_forall in Hall; specialize (Hall _ Hnth).
      replace (Z.of_nat i + 1) with (1 + Z.of_nat i) by lia; exact Hall.
  - intros k Hk Hall.
    destruct (display_loop_shown self None (enumerate 1 records)
                (no_filter_returns _)) as [_ Hsome].
    simpl in Hsome; rewrite filter_all in Hsome.
    specialize (Hsome k 0); rewrite Z.sub_0_r in Hsome.
    rewrite (display_data_list self (Some k) None records _ _ Hd Hne
               (Hsome ltac:(lia) Hall)).
    rewrite length_firstn, enumerate_length.
    destruct (Z.eqb_spec (0 + Z.of_nat (Nat.min (Z.to_nat k) (List.length records))) 0);
      [lia|].
    rewrite app_nil_r; reflexivity.
  - intros p limit Hlimit accepted shown Hall.
    destruct (display_loop_shown self (predicate p) (enumerate 1 records)
                (predicate_returns p _)) as [Hnone Hsome].
    assert (Hacc : List.filter
                     (fun item : Z * json => accepts (predicate p) (snd item))
                     (enumerate 1 records) = accepted) by reflexivity.
    rewrite Hacc in Hnone, Hsome.
    assert (Hloop : display_loop self limit (predicate p) (enumerate 1 records) 0
                    = (flat_map (block self) shown, Z.of_nat (List.length shown))).
    { destruct Hlimit as [->|[k [-> Hk]]].
      - rewrite (Hnone 0 Hall); reflexivity.
      - specialize (Hsome k 0); rewrite Z.sub_0_r in Hsome.
        rewrite (Hsome ltac:(lia) Hall); reflexivity. }
    split; [exact Hloop|].
    rewrite (display_data_list self limit (predicate p) records _ _ Hd Hne Hloop).
    destruct (List.length shown); reflexivity.
Qed.

(** C5. When the loop comes to a record that the filter lets through and
    on which the formatter raises [e] after printing [part], it prints
    the line "(warning sign) Warning: Error processing record [idx]: "
    followed by the text of [e], then a line of 50 dashes, leaves the
    displayed count as it was and goes on with the records that follow.
    Without a limit the loop comes to every record, so for the record at
    position [len(before) + 1] of the stored list the whole display is:
    what the records before it give, [part], the warning with that
    position as the index, and what the records after it give from the
    same count. *)
Theorem render_error_is_isolated self filter_func idx record part e :
  accepts filter_func record = true ->
  format_record self idx record = (part, inl e) ->
  let warning :=
    [ [9888%N] ++ str " Warning: Error processing record " ++ dec idx
        ++ str ": " ++ exn_msg e;
      List.repeat 45%N 50 ] in
  (forall limit rest n,
     display_loop self limit filter_func ((idx, record) :: rest) n
     = (part ++ warning ++ fst (display_loop self limit filter_func rest n),
        snd (display_loop self limit filter_func rest n)))
  /\
  (forall before after,
     idx = Z.of_nat (List.length before) + 1 ->
     data self = JArray (before ++ record :: after) ->
     let '(out1, n1) :=
       display_loop self None filter_func (enumerate 1 before) 0 in
     let '(out2, n2) :=
       display_loop self None filter_func (enumerate (idx + 1) after) n1 in
     display_data self None filter_func
     = (out1 ++ part ++ warning ++ out2
          ++ (if n2 =? 0
              then [str "No records matched the filter criteria."]
              else []),
        inr tt)).
Proof.
  intros Hacc Hfmt warning.
  assert (Hstep : forall limit rest n,
     display_loop self limit filter_func ((idx, record) :: rest) n
     = (part ++ warning ++ fst (display_loop self limit filter_func rest n),
        snd (display_loop self limit filter_func rest n))).
  { intros limit rest n; simpl.
    rewrite (display_record_accepted _ _ _ _ Hacc), Hfmt.
    destruct (display_loop self limit filter_func rest n); reflexivity. }
  split; [exact Hstep|].
  intros before after Hidx Hd.
  destruct (display_loop self None filter_func (enumerate 1 before) 0)
    as [out1 n1] eqn:E1.
  destruct (display_loop self None filter_func (enumerate (idx + 1) after) n1)
    as [out2 n2] eqn:E2.
  assert (Hloop :
    display_loop self None filter_func
      (enumerate 1 (before ++ record :: after)) 0
    = (out1 ++ part ++ warning ++ out2, n2)).
  { rewrite enumerate_app, display_loop_app, E1.
    replace (1 + Z.of_nat (List.length before)) with idx by lia.
    change (enumerate idx (record :: after))
      with ((idx, record) :: enumerate (idx + 1) after).
    rewrite Hstep, E2; reflexivity. }
  rewrite (display_data_list self None filter_func _ _ _ Hd
             ltac:(destruct before; discriminate) Hloop).
  rewrite <- !app_assoc; reflexivity.
Qed.

(** C10. [display_data] with [limit = 0] does what it does with no
    limit, for every session and filter: the test [limit and ...] is
    false for 0, so the loop never stops early.  For a stored non-empty
    list this means that every record is rendered, or with a predicate
    every record that passes it: the output is the blocks of all of them,
    in order, each block headed by the record's index, and the no-match
    notice is printed only when no record passes. *)
Theorem display_data_limit_zero (self : fetcher) :
  (forall filter_func,
     display_data self (Some 0) filter_func = display_data self None filter_func)
  /\
  (forall records, data self = JArray records -> records <> [] ->
   (Forall (renders self) (enumerate 1 records) ->
    display_data self (Some 0) None
    = (flat_map (block self) (enumerate 1 records), inr tt))
   /\ (forall p,
       let accepted :=
         List.filter (fun item => p (snd item)) (enumerate 1 records) in
       Forall (renders self) accepted ->
       display_data self (Some 0) (predicate p)
       = (flat_map (block self) accepted
            ++ (if Nat.eqb (List.length accepted) 0
                then [str "No records matched the filter criteria."]
                else []),
          inr tt))
   /\ (In (api_type self) supported ->
       forall item, In item (enumerate 1 records) -> renders self item ->
       exists l1 l2 l3 l4,
         block self item
         = [ (if pystr_eqb (api_type self) (str "coingecko")
              then str "Crypto " else str "User ")
               ++ dec (fst item) ++ str ":";
             l1; l2; l3; l4; List.repeat 45%N 24 ])).
Proof.
  split; [apply display_data_zero_is_none|].
  intros records Hd Hne.
  assert (Hlen : (0 < List.length records)%nat)
    by (destruct records; [congruence | simpl; lia]).
  split; [|split].
  - intros Hall.
    destruct (display_loop_shown self None (enumerate 1 records)
                (no_filter_returns _)) as [Hnone _].
    simpl in Hnone; rewrite filter_all in Hnone.
    rewrite display_data_zero_is_none.
    rewrite (display_data_list self None None records _ _ Hd Hne
               (Hnone 0 Hall)).
    rewrite enumerate_length.
    destruct (Z.eqb_spec (0 + Z.of_nat (List.length records)) 0); [lia|].
    rewrite app_nil_r; reflexivity.
  - intros p accepted Hall.
    destruct (display_loop_shown self (predicate p) (enumerate 1 records)
                (predicate_returns p _)) as [Hnone _].
    assert (Hacc : List.filter
                     (fun item : Z * json => accepts (predicate p) (snd item))
                     (enumerate 1 records) = accepted) by reflexivity.
    rewrite Hacc in Hnone.
    rewrite display_data_zero_is_none.
    rewrite (display_data_list self None (predicate p) records _ _ Hd Hne
               (Hnone 0 Hall)).
    destruct (List.length accepted); reflexivity.
  - intros Hsup [idx record] _ Hr.
    exact (block_shape self idx record Hsup Hr).
Qed.

(* ------------------------------------------------------------------ *)
(** ** Numbers as money *)

Lemma uint_digits (d : Decimal.uint) :
  Forall (fun c => is_digit c = true) (str (NilEmpty.string_of_uint d)).
Proof.
  induction d; simpl; constructor; (reflexivity || assumption).
Qed.

Lemma dec_digits (q : Z) :
  0 <= q -> dec q <> [] /\ Forall (fun c => is_digit c = true) (dec q).
Proof.
  intros Hq; unfold dec.
  destruct q as [|p|p]; [| |lia].
  - split; [discriminate | repeat constructor].
  - simpl Z.to_int; unfold NilZero.string_of_int, NilZero.string_of_uint.
    pose proof (uint_digits (Pos.to_uint p)) as H.
    destruct (Pos.to_uint p) eqn:E;
      [ split; [discriminate | repeat constructor] | .. ];
      (split; [discriminate | exact H]).
Qed.

Lemma group_from_last k d : group_from k [d] = [d].
Proof. destruct k; reflexivity. Qed.

Lemma group_from_comma d rest :
  rest <> [] -> group_from 1 (d :: rest) = d :: 44%N :: group_from 3 rest.
Proof. destruct rest; [congruence | reflexivity]. Qed.

Lemma group_from_next k d rest :
  rest <> [] -> (2 <= k)%nat ->
  group_from k (d :: rest) = d :: group_from (Nat.pred k) rest.
Proof.
  destruct rest; [congruence|]; intros _ Hk.
  destruct k as [|[|k]]; [lia | lia | reflexivity].
Qed.

Lemma group_from_spec (digits : pystr) :
  forall k, (1 <= k <= 3)%nat -> digits <> [] ->
  ((List.length digits + 3 - k) mod 3 = 0)%nat ->
  exists first groups,
    digits = first ++ List.concat groups
    /\ List.length first = k
    /\ Forall (fun g => List.length g = 3%nat) groups
    /\ group_from k digits = join (str ",") (first :: groups).
Proof.
  induction digits as [|d rest IH]; intros k Hk Hne Hmod; [congruence|].
  destruct rest as [|d' rest'].
  - exists [d], []; rewrite group_from_last.
    destruct k as [|[|[|[|k]]]]; try lia; simpl in Hmod; try discriminate.
    repeat split; constructor.
  - assert (Hrest : d' :: rest' <> []) by discriminate.
    destruct k as [|[|k]]; [lia | |].
    + rewrite (group_from_comma d _ Hrest).
      destruct (IH 3%nat ltac:(lia) Hrest) as [first [groups [E [Hl [Hg Hj]]]]].
      { simpl List.length in *.
        replace (S (S (List.length rest')) + 3 - 1)%nat
          with (S (List.length rest') + 3 - 3 + 1 * 3)%nat in Hmod by lia.
        rewrite Nat.Div0.mod_add in Hmod; exact Hmod. }
      exists [d], (first :: groups); rewrite Hj, E; repeat split.
      * constructor; assumption.
    + rewrite (group_from_next (S (S k)) d _ Hrest ltac:(lia)).
      destruct (IH (S k) ltac:(lia) Hrest) as [first [groups [E [Hl [Hg Hj]]]]].
      { simpl List.length in *.
        replace (S (List.length rest') + 3 - S k)%nat
          with (S (S (List.length rest')) + 3 - S (S k))%nat by lia.
        exact Hmod. }
      exists (d :: first), groups; simpl Nat.pred; rewrite Hj, E.
      repeat split; [simpl; lia | assumption |].
      destruct groups; reflexivity.
Qed.

Lemma group3_spec (digits : pystr) :
  digits <> [] ->
  exists first groups,
    digits = first ++ List.concat groups
    /\ (1 <= List.length first <= 3)%nat
    /\ Forall (fun g => List.length g = 3%nat) groups
    /\ group3 digits = join (str ",") (first :: groups).
Proof.
  intros Hne; unfold group3.
  assert (Hl : (1 <= List.length digits)%nat)
    by (destruct digits; [congruence | simpl; lia]).
  pose proof (Nat.mod_upper_bound (List.length digits - 1) 3 ltac:(lia)) as Hb.
  destruct (group_from_spec digits (S ((List.length digits - 1) mod 3))
              ltac:(lia) Hne) as [first [groups [E [Hf [Hg Hj]]]]].
  - pose proof (Nat.div_mod_eq (List.length digits - 1) 3) as Hd.
    set (r := ((List.length digits - 1) mod 3)%nat) in *.
    set (q := ((List.length digits - 1) / 3)%nat) in *.
    replace (List.length digits + 3 - S r)%nat with (0 + (q + 1) * 3)%nat by lia.
    rewrite Nat.Div0.mod_add; reflexivity.
  - exists first, groups; repeat split; try assumption; lia.
Qed.

Lemma fixed_point_money prec sign q :
  sign = [] \/ sign = str "-" -> 0 <= q ->
  money_text prec (sign ++ fixed_point prec q).
Proof.
  intros Hsign Hq; unfold fixed_point.
  destruct (dec_digits q Hq) as [Hne Hdig].
  set (ds := List.repeat 48%N (S prec - List.length (dec q)) ++ dec q).
  assert (Hlen : (S prec <= List.length ds)%nat)
    by (unfold ds; rewrite length_app, repeat_length; lia).
  assert (Hds : Forall (fun c => is_digit c = true) ds).
  { unfold ds; apply Forall_app; split; [|exact Hdig].
    apply Forall_forall; intros c Hc; apply repeat_spec in Hc; subst; reflexivity. }
  set (n := (List.length ds - prec)%nat).
  assert (Hn : List.length (firstn n ds) = n) by (apply firstn_length_le; lia).
  destruct (group3_spec (firstn n ds)) as [first [groups [E [Hf [Hg Hj]]]]].
  { intros H0; rewrite H0 in Hn; simpl in Hn; lia. }
  rewrite Hj.
  replace (match prec with O => [] | S _ => 46%N :: skipn n ds end)
    with (match prec with O => [] | S _ => str "." ++ skipn n ds end)
    by (destruct prec; reflexivity).
  apply money_digits; try assumption.
  - rewrite length_skipn; lia.
  - rewrite app_assoc, <- E, firstn_skipn; exact Hds.
Qed.

Lemma round_half_even_nonneg n d : 0 <= n -> 0 < d -> 0 <= round_half_even n d.
Proof.
  intros Hn Hd; unfold round_half_even.
  pose proof (Z.div_pos n d Hn Hd).
  destruct (2 * (n mod d) >? d); [lia|].
  destruct (2 * (n mod d) =? d); [destruct (Z.even (n / d)); lia | lia].
Qed.

Lemma format_float_money prec f :
  finite_float f = true -> money_text prec (format_float prec f).
Proof.
  assert (Hsign : forall s : bool,
             (if s then str "-" else []) = [] \/ (if s then str "-" else []) = str "-")
    by (intros []; auto).
  destruct f as [s|s| |s m e]; simpl; try discriminate; intros _.
  - apply fixed_point_money; [apply Hsign | lia].
  - apply fixed_point_money; [apply Hsign|].
    assert (0 <= Z.pos m * 10 ^ Z.of_nat prec)
      by (apply Z.mul_nonneg_nonneg; [lia | apply Z.pow_nonneg; lia]).
    destruct (0 <=? e) eqn:Ee.
    + apply Z.mul_nonneg_nonneg; [assumption | apply Z.pow_nonneg; lia].
    + apply round_half_even_nonneg; [assumption|].
      apply Z.pow_pos_nonneg; [lia | apply Z.leb_gt in Ee; lia].
Qed.

Lemma round_half_even_bound n d :
  0 <= n -> 0 < d -> 2 * (round_half_even n d * d) <= 2 * n + d.
Proof.
  intros Hn Hd; unfold round_half_even.
  pose proof (Z.div_mod n d ltac:(lia)) as Hdm.
  pose proof (Z.mod_pos_bound n d Hd) as Hr.
  destruct (Z.gtb_spec (2 * (n mod d)) d);
    [nia | destruct (Z.eqb_spec (2 * (n mod d)) d);
           [destruct (Z.even (n / d)); nia | nia]].
Qed.

Lemma float_of_int_fits z :
  Z.abs z < 2 ^ 1024 - 2 ^ 970 -> exists f, float_of_int z = inr f.
Proof.
  intros Hz; unfold float_of_int.
  destruct (z =? 0) eqn:Ez; [eauto|].
  apply Z.eqb_neq in Ez.
  set (a := Z.abs z) in *.
  set (k := Z.max 0 (Z.log2 a + 1 - 53)).
  destruct (2 ^ 1024 <=? round_half_even a (2 ^ k) * 2 ^ k) eqn:E; [|eauto].
  exfalso; apply Z.leb_le in E.
  assert (Ha : 0 < a) by (unfold a; lia).
  assert (Hk : 0 <= k <= 971).
  { assert (Z.log2 a < 1024).
    { apply Z.log2_lt_pow2; [exact Ha|].
      assert (0 < 2 ^ 970) by (apply Z.pow_pos_nonneg; lia). lia. }
    unfold k; lia. }
  pose proof (round_half_even_bound a (2 ^ k) ltac:(lia)
                ltac:(apply Z.pow_pos_nonneg; lia)) as Hb.
  assert (Hp : 2 ^ k <= 2 ^ 971) by (apply Z.pow_le_mono_r; lia).
  assert (H971 : 2 ^ 971 = 2 * 2 ^ 970)
    by (change 971 with (Z.succ 970); apply Z.pow_succ_r; lia).
  lia.
Qed.

Lemma float_of_int_finite z f :
  float_of_int z = inr f -> finite_float f = true.
Proof.
  unfold float_of_int; destruct (z =? 0); [intros H; inversion H; reflexivity|].
  destruct (2 ^ 1024 <=? _); intros H; inversion H; reflexivity.
Qed.

Lemma format_f_returns prec v :
  finite_number v = true -> fits_float v ->
  exists amount, format_f prec v = inr amount /\ money_text prec amount.
Proof.
  destruct v as [|b|z|f| | |]; simpl; try discriminate; intros Hf Hv.
  - destruct (float_of_int_fits (if b then 1 else 0)) as [f E];
      [destruct b; vm_compute; reflexivity|].
    rewrite E; eexists; split; [reflexivity|].
    apply format_float_money, (float_of_int_finite _ _ E).
  - destruct (float_of_int_fits z Hv) as [f E].
    rewrite E; eexists; split; [reflexivity|].
    apply format_float_money, (float_of_int_finite _ _ E).
  - eexists; split; [reflexivity | apply format_float_money, Hf].
Qed.

Lemma money_line_returns label other prec v :
  fits_float v ->
  exists line, money_line label other prec v = inr line
               /\ currency_or_raw label prec v line.
Proof.
  intros Hv; unfold money_line, currency_or_raw.
  assert (Hfin : finite_number v = true ->
            exists line,
              (if is_int_or_float v
               then match format_f prec v with
                    | inl e => inl e
                    | inr amount => inr (str label ++ str ": $" ++ amount)
                    end
               else inr (str other ++ str ": " ++ py_str v)) = inr line
              /\ (if is_int_or_float v
                  then exists amount,
                         format_f prec v = inr amount
                         /\ money_text prec amount
                         /\ line = str label ++ str ": $" ++ amount
                  else exists other', line = str other' ++ str ": " ++ py_str v)).
  { intros Hf.
    assert (E : is_int_or_float v = true)
      by (destruct v; simpl in *; congruence).
    destruct (format_f_returns prec v Hf Hv) as [amount [Ea Hm]].
    rewrite E, Ea; eexists; split; [reflexivity|].
    exists amount; repeat split; assumption. }
  destruct v as [|b|z|[s|s| |s m e]| | |];
    try (apply Hfin; reflexivity);
    try (eexists; split; [reflexivity | eauto]);
    eexists; split; reflexivity.
Qed.

(* ------------------------------------------------------------------ *)
(** ** Missing fields *)

Lemma top_level_missing m key :
  at_path (JObject m) [key] = None -> forall default, dict_get m key default = default.
Proof.
  unfold dict_get; simpl; destruct (lookup (str key) m); [discriminate | reflexivity].
Qed.

Lemma nested_missing m key key' d :
  dict_get m key (JObject []) = JObject d ->
  at_path (JObject m) [key; key'] = None ->
  forall default, dict_get d key' default = default.
Proof.
  unfold dict_get at 1; simpl; intros Hd Hp default.
  destruct (lookup (str key) m) as [v|].
  - subst v; unfold dict_get; destruct (lookup (str key') d);
      [discriminate | reflexivity].
  - inversion Hd; reflexivity.
Qed.

Lemma written_encodable (stdout : codec) (out : list pystr) :
  Forall (fun line => encodable stdout line = true) out ->
  written stdout out = (out, None).
Proof.
  induction 1 as [|line rest Hl _ IH]; simpl; [reflexivity|].
  rewrite Hl, IH; reflexivity.
Qed.

Lemma on_console_encodable {A} (stdout : codec) (m : io A) :
  Forall (fun line => encodable stdout line = true) (fst m) ->
  on_console stdout m = m.
Proof.
  intros H; unfold on_console; rewrite (written_encodable stdout _ H).
  destruct m; reflexivity.
Qed.

(** C6, as the code has it.  For a record that is a mapping, on a
    console that can encode the lines of the record's block:
    - jsonplaceholder, [address] absent or a mapping: the formatter
      returns after printing a full block, and each of name, username,
      email and address.city that is missing is shown as "N/A";
    - randomuser, [name] and [location] absent or mappings: the
      formatter returns after printing a full block; the name is "N/A"
      when both name.first and name.last are missing, and each of email,
      location.city and location.country that is missing is "N/A";
    - coingecko, [symbol] absent or a string and no [int] beyond the
      range of [float] as price or market cap: the formatter returns
      after printing a full block; a missing name or symbol is "N/A", a
      missing current_price is "$0.00" and a missing market_cap is
      "$0". *)
Theorem missing_fields_render_placeholder (stdout : codec) (idx : Z)
  (m : list (pystr * json)) :
  (absent_or_dict m "address" ->
   Forall (fun line => encodable stdout line = true)
     (fst (_display_user idx (JObject m))) ->
   exists l1 l2 l3 l4,
     on_console stdout (_display_user idx (JObject m))
     = ([str "User " ++ dec idx ++ str ":"; l1; l2; l3; l4;
         List.repeat 45%N 24], inr tt)
     /\ (at_path (JObject m) ["name"] = None -> l1 = str "Name: N/A")
     /\ (at_path (JObject m) ["username"] = None -> l2 = str "Username: N/A")
     /\ (at_path (JObject m) ["email"] = None -> l3 = str "Email: N/A")
     /\ (at_path (JObject m) ["address"; "city"] = None -> l4 = str "City: N/A"))
  /\
  (absent_or_dict m "name" -> absent_or_dict m "location" ->
   Forall (fun line => encodable stdout line = true)
     (fst (_display_random_user idx (JObject m))) ->
   exists l1 l2 l3 l4,
     on_console stdout (_display_random_user idx (JObject m))
     = ([str "User " ++ dec idx ++ str ":"; l1; l2; l3; l4;
         List.repeat 45%N 24], inr tt)
     /\ (at_path (JObject m) ["name"; "first"] = None ->
         at_path (JObject m) ["name"; "last"] = None -> l1 = str "Name: N/A")
     /\ (at_path (JObject m) ["email"] = None -> l2 = str "Email: N/A")
     /\ (at_path (JObject m) ["location"; "city"] = None -> l3 = str "City: N/A")
     /\ (at_path (JObject m) ["location"; "country"] = None ->
         l4 = str "Country: N/A"))
  /\
  (absent_or_str m "symbol" ->
   fits_float (dict_get m "current_price" (JInt 0)) ->
   fits_float (dict_get m "market_cap" (JInt 0)) ->
   Forall (fun line => encodable stdout line = true)
     (fst (_display_crypto idx (JObject m))) ->
   exists l1 l2 l3 l4,
     on_console stdout (_display_crypto idx (JObject m))
     = ([str "Crypto " ++ dec idx ++ str ":"; l1; l2; l3; l4;
         List.repeat 45%N 24], inr tt)
     /\ (at_path (JObject m) ["name"] = None -> l1 = str "Name: N/A")
     /\ (at_path (JObject m) ["symbol"] = None -> l2 = str "Symbol: N/A")
     /\ (at_path (JObject m) ["current_price"] = None ->
         l3 = str "Current Price: $0.00")
     /\ (at_path (JObject m) ["market_cap"] = None -> l4 = str "Market Cap: $0")).
Proof.
  split; [|split].
  - intros [address Ha] Henc; rewrite (on_console_encodable _ _ Henc).
    rewrite display_user_dict, Ha.
    do 4 eexists; split; [reflexivity|]; repeat split; intros H.
    + rewrite (top_level_missing m _ H); reflexivity.
    + rewrite (top_level_missing m _ H); reflexivity.
    + rewrite (top_level_missing m _ H); reflexivity.
    + rewrite (nested_missing m _ _ _ Ha H); reflexivity.
  - intros [name_obj Hn] [location Hl] Henc.
    rewrite (on_console_encodable _ _ Henc).
    rewrite display_random_user_dict, Hn, Hl.
    do 4 eexists; split; [reflexivity|]; repeat split.
    + intros H1 H2; unfold full_name.
      rewrite (nested_missing m _ _ _ Hn H1), (nested_missing m _ _ _ Hn H2).
      reflexivity.
    + intros H; rewrite (top_level_missing m _ H); reflexivity.
    + intros H; rewrite (nested_missing m _ _ _ Hl H); reflexivity.
    + intros H; rewrite (nested_missing m _ _ _ Hl H); reflexivity.
  - intros [symbol Hs] Hp Hc Henc; rewrite (on_console_encodable _ _ Henc).
    rewrite display_crypto_dict, Hs.
    destruct (money_line_returns "Current Price" "Price" 2 _ Hp)
      as [price_line [Ep _]].
    destruct (money_line_returns "Market Cap" "Market Cap" 0 _ Hc)
      as [cap_line [Ec _]].
    rewrite Ep, Ec.
    do 4 eexists; split; [reflexivity|]; repeat split; intros H.
    + rewrite (top_level_missing m _ H); reflexivity.
    + rewrite (top_level_missing m _ H) in Hs; inversion Hs; reflexivity.
    + rewrite (top_level_missing m _ H) in Ep; inversion Ep; reflexivity.
    + rewrite (top_level_missing m _ H) in Ec; inversion Ec; reflexivity.
Qed.

(** C7, as the code has it.  For a coingecko record that is a mapping
    whose symbol is absent or a string and that has no [int] beyond the
    range of [float] as price or market cap, on a console that can
    encode the lines of the block, the formatter returns after printing
    the block with the symbol in upper case.  It shows current_price and
    market_cap as money (dollar sign, commas between thousands, 2 and 0
    decimals) when the value is an [int] or a [float] that is a number,
    [True] and [False] being the [int]s 1 and 0; as "$inf", "$-inf" or
    "$nan" when it is a [float] that is infinite or not a number; and as
    the text of the value otherwise.  The record of the example, whose
    price 43250.5 is the float [86501 * 2^-1], gives the two lines of
    the claim on a UTF-8 console. *)
Theorem display_crypto_lines (stdout : codec) (idx : Z)
  (m : list (pystr * json)) (symbol : pystr) :
  dict_get m "symbol" NA = JStr symbol ->
  fits_float (dict_get m "current_price" (JInt 0)) ->
  fits_float (dict_get m "market_cap" (JInt 0)) ->
  Forall (fun line => encodable stdout line = true)
    (fst (_display_crypto idx (JObject m))) ->
  (exists price_line cap_line,
     on_console stdout (_display_crypto idx (JObject m))
     = ([ str "Crypto " ++ dec idx ++ str ":";
          str "Name: " ++ py_str (dict_get m "name" NA);
          str "Symbol: " ++ str_upper symbol;
          price_line; cap_line; List.repeat 45%N 24 ], inr tt)
     /\ currency_or_raw "Current Price" 2
          (dict_get m "current_price" (JInt 0)) price_line
     /\ currency_or_raw "Market Cap" 0
          (dict_get m "market_cap" (JInt 0)) cap_line)
  /\
  on_console utf8 (_display_crypto 1 bitcoin)
  = ([ str "Crypto 1:"; str "Name: Bitcoin"; str "Symbol: BTC";
       str "Current Price: $43,250.50"; str "Market Cap: $850,000,000";
       str "------------------------" ], inr tt).
Proof.
  intros Hs Hp Hc Henc; split; [|vm_compute; reflexivity].
  rewrite (on_console_encodable _ _ Henc).
  rewrite display_crypto_dict, Hs.
  destruct (money_line_returns "Current Price" "Price" 2 _ Hp)
    as [price_line [Ep Hpl]].
  destruct (money_line_returns "Market Cap" "Market Cap" 0 _ Hc)
    as [cap_line [Ec Hcl]].
  rewrite Ep, Ec; exists price_line, cap_line.
  split; [reflexivity | split; assumption].
Qed.

End Properties.

(* ================================================================== *)
(** * Further properties *)

Section Further.
Context {RT : PyRuntime}.

(* ------------------------------------------------------------------ *)
(** ** Fetching: counts, statuses and the order of the clauses *)

Lemma fetch_except_not_true (e : exn) (out : list pystr) :
  fetch_except e <> (out, inr true).
Proof.
  destruct e as [c m [code|]]; destruct c; cbn; intros H; inversion H.
Qed.

(** A fetch that returns [True] has stored a value with a length and
    printed that length. *)
Lemma fetch_data_true (self : fetcher) (net : http_outcome) out self' :
  fetch_data self net = (out, inr true, self') ->
  exists n, py_len (data self') = inr n
            /\ out = fetch_banner self ++ [success_line n].
Proof.
  unfold fetch_data, fetch_try.
  assert (Hno : forall e o (s : fetcher),
             (let '(out', r) := fetch_except e in (o ++ out', r, s))
             = (out, inr true, self') -> False).
  { intros e o s; destruct (fetch_except e) as [out' r] eqn:E.
    intros H; inversion H; subst.
    exact (fetch_except_not_true e out' E). }
  destruct net as [e|r]; [intros H; destruct (Hno _ _ _ H)|].
  destruct (raise_for_status r); [intros H; destruct (Hno _ _ _ H)|].
  destruct (body r) as [e|j]; [intros H; destruct (Hno _ _ _ H)|].
  destruct (if pystr_eqb (api_type self) (str "randomuser")
            then py_get j "results" (JArray []) else inr j) as [e|v];
    [intros H; destruct (Hno _ _ _ H)|].
  destruct (py_len (data (set_data self v))) as [e|n] eqn:E;
    [intros H; destruct (Hno _ _ _ H)|].
  intros H; inversion H; subst; eauto.
Qed.

Lemma get_count_len (self : fetcher) (n : Z) :
  py_len (data self) = inr n -> get_count self = inr n.
Proof.
  unfold get_count; destruct (data self) as [| | | |s|l|m]; simpl;
    try discriminate; intros H.
  - destruct s; [exact H | reflexivity || exact H].
  - destruct l; exact H.
  - destruct m; exact H.
Qed.

(** X1. [get_count] agrees with [fetch_data]: after a fetch that returned
    [True], it returns the very number that the fetch printed in its
    success line, the length of the store; on a session that never
    fetched it returns 0. *)
Theorem get_count_is_reported_count (self : fetcher) (net : http_outcome)
  (out : list pystr) (self' : fetcher) :
  fetch_data self net = (out, inr true, self') ->
  (exists n, get_count self' = inr n
             /\ py_len (data self') = inr n
             /\ out = fetch_banner self ++ [success_line n])
  /\ (forall t fresh, __init__ t = inr fresh -> get_count fresh = inr 0).
Proof.
  intros H; split.
  - destruct (fetch_data_true self net out self' H) as [n [Hn Hout]].
    exists n; repeat split; auto using get_count_len.
  - intros t fresh; unfold __init__.
    destruct (find_api t APIS); intros Hi; inversion Hi; reflexivity.
Qed.

(** X2. A fetch may succeed with no records.  When the body of a response
    that is not an HTTP error is the empty list (or, for "randomuser", an
    object whose [results] is absent or the empty list), [fetch_data]
    reports 0 records and returns [True]; the display that follows,
    whatever its limit and filter, prints only "No data available.
    Please fetch data first.", and [get_count] is 0. *)
Theorem empty_fetch_shows_no_data (self : fetcher) (r : response) :
  ~ 400 <= status_code r < 600 ->
  (api_type self <> str "randomuser" /\ body r = inr (JArray [])
   \/ api_type self = str "randomuser"
      /\ exists m, body r = inr (JObject m)
                   /\ dict_get m "results" (JArray []) = JArray []) ->
  fetch_data self (Responded r)
  = (fetch_banner self ++ [success_line 0], inr true, set_data self (JArray []))
  /\ (forall limit filter_func,
        display_data (set_data self (JArray [])) limit filter_func
        = ([no_data_notice], inr tt))
  /\ get_count (set_data self (JArray [])) = inr 0.
Proof.
  intros Hs Hb; split; [|split; [intros; reflexivity | reflexivity]].
  destruct Hb as [[Ht Hb] | [Ht [m [Hb Hm]]]].
  - rewrite (fetch_data_decoded self r (JArray []) (JArray []) Hs Hb);
      [reflexivity|].
    rewrite (pystr_eqb_neq _ _ Ht); reflexivity.
  - rewrite (fetch_data_decoded self r (JObject m) (JArray []) Hs Hb);
      [reflexivity|].
    rewrite Ht, pystr_eqb_refl; simpl; rewrite Hm; reflexivity.
Qed.

(** X3. A fetch can fail after it has changed the store.  For the
    profiles other than "randomuser", when the decoded body has no length
    ([null], a boolean or a number), [self.data] is assigned before
    [len] raises: the caller receives the [TypeError] and the session now
    holds the body, whatever it held before. *)
Theorem failed_len_leaves_body_in_store (self : fetcher) (r : response)
  (j : json) (e : exn) :
  ~ 400 <= status_code r < 600 -> body r = inr j ->
  api_type self <> str "randomuser" -> py_len j = inl e ->
  fetch_data self (Responded r) = (fetch_banner self, inl e, set_data self j)
  /\ exn_cls e = TypeError
  /\ data (snd (fetch_data self (Responded r))) = j.
Proof.
  intros Hs Hb Ht He.
  assert (E : fetch_data self (Responded r)
              = (fetch_banner self, inl e, set_data self j)).
  { rewrite (fetch_data_decoded self r j j Hs Hb);
      [|rewrite (pystr_eqb_neq _ _ Ht); reflexivity].
    rewrite He, (py_len_error_escapes j e He); reflexivity. }
  rewrite E; repeat split.
  destruct j; simpl in He; inversion He; reflexivity.
Qed.

(** X4. An HTTP status from 400 to 599 ends the fetch before the body is
    looked at: [fetch_data] prints the error line with the message of
    [raise_for_status] and a second line with the status code, returns
    [False] and leaves the session as it was, whether or not the body
    would decode. *)
Theorem http_error_reports_status (self : fetcher) (r : response) :
  400 <= status_code r < 600 ->
  exists kind,
    (kind = "Client" \/ kind = "Server")
    /\ fetch_data self (Responded r)
       = (fetch_banner self
            ++ [ cross_mark ++ str " Error: HTTP error occurred: "
                   ++ dec (status_code r) ++ str " " ++ str kind
                   ++ str " Error: " ++ reason r ++ str " for url: "
                   ++ resp_url r;
                 str "  Status Code: " ++ dec (status_code r) ],
          inr false, self).
Proof.
  intros H; unfold fetch_data, fetch_try, raise_for_status.
  destruct ((400 <=? status_code r) && (status_code r <? 500)) eqn:E4.
  - exists "Client"; split; [auto | reflexivity].
  - destruct ((500 <=? status_code r) && (status_code r <? 600)) eqn:E5.
    + exists "Server"; split; [auto | reflexivity].
    + exfalso.
      apply andb_false_iff in E4; apply andb_false_iff in E5.
      destruct E4 as [E4|E4], E5 as [E5|E5];
        try apply Z.leb_gt in E4; try apply Z.ltb_ge in E4;
        try apply Z.leb_gt in E5; try apply Z.ltb_ge in E5; lia.
Qed.

(** X5. The [except] clauses are tried in order, so the first one that
    fits decides the message.  A time-out is reported as a time-out even
    when it is also a connection error ([ConnectTimeout]).  The
    [JSONDecodeError] of [requests], which is a [RequestException] and a
    [ValueError], is reported by the clause for [RequestException]; only
    a decoding error that is a plain [ValueError] reaches the message
    "Failed to parse JSON response". *)
Theorem except_clauses_in_order (self : fetcher) :
  (forall e, isinstance e Timeout = true ->
     fetch_data self (GetRaised e)
     = (fetch_banner self
          ++ [cross_mark ++ str " Error: Request timed out. Please check your internet connection."],
        inr false, self))
  /\
  (forall r e, ~ 400 <= status_code r < 600 -> body r = inl e ->
     exn_cls e = RequestsJSONDecodeError ->
     fetch_data self (Responded r)
     = (fetch_banner self
          ++ [cross_mark ++ str " Error: An error occurred while fetching data: "
                ++ exn_msg e],
        inr false, self))
  /\
  (forall r e, ~ 400 <= status_code r < 600 -> body r = inl e ->
     exn_cls e = JSONDecodeError \/ exn_cls e = ValueError ->
     fetch_data self (Responded r)
     = (fetch_banner self
          ++ [cross_mark ++ str " Error: Failed to parse JSON response: "
                ++ exn_msg e],
        inr false, self)).
Proof.
  split; [|split].
  - intros [c m s] H; unfold fetch_data, fetch_try.
    destruct c; cbn in H; try discriminate; reflexivity.
  - intros r [c m s] Hs Hb Hc; simpl in Hc; subst c.
    unfold fetch_data, fetch_try.
    rewrite (raise_for_status_ok r Hs), Hb; reflexivity.
  - intros r [c m s] Hs Hb Hc; simpl in Hc.
    unfold fetch_data, fetch_try.
    rewrite (raise_for_status_ok r Hs), Hb.
    destruct Hc; subst c; reflexivity.
Qed.

(** X6. Of the status code [fetch_data] only asks whether it lies from
    400 to 599: two responses whose bodies decode alike, neither of them
    an HTTP error, give the same fetch, so a status such as 304 or 100
    is handled like 200. *)
Theorem status_matters_only_from_400_to_599 (self : fetcher) (r r' : response) :
  ~ 400 <= status_code r < 600 -> ~ 400 <= status_code r' < 600 ->
  body r = body r' ->
  fetch_data self (Responded r) = fetch_data self (Responded r').
Proof.
  intros H H' Hb; unfold fetch_data, fetch_try.
  rewrite (raise_for_status_ok r H), (raise_for_status_ok r' H'), Hb.
  reflexivity.
Qed.

(* ------------------------------------------------------------------ *)
(** ** Fetching: what every sequence of fetches keeps *)

Lemma fetch_data_profile (self : fetcher) (net : http_outcome) :
  api_type (snd (fetch_data self net)) = api_type self
  /\ config (snd (fetch_data self net)) = config self.
Proof.
  unfold fetch_data, fetch_try.
  destruct net as [e|r]; [destruct (fetch_except e); auto|].
  destruct (raise_for_status r) as [e|]; [destruct (fetch_except e); auto|].
  destruct (body r) as [e|j]; [destruct (fetch_except e); auto|].
  destruct (if pystr_eqb (api_type self) (str "randomuser")
            then py_get j "results" (JArray []) else inr j) as [e|v];
    [destruct (fetch_except e); auto|].
  destruct (py_len (data (set_data self v))) as [e|n];
    [destruct (fetch_except e); auto | auto].
Qed.

Lemma fetch_all_cons (self : fetcher) net rest :
  fetch_all self (net :: rest)
  = (snd (fst (fetch_data self net))
       :: fst (fetch_all (snd (fetch_data self net)) rest),
     snd (fetch_all (snd (fetch_data self net)) rest)).
Proof.
  simpl; destruct (fetch_data self net) as [[out res] self']; simpl.
  destruct (fetch_all self' rest); reflexivity.
Qed.

Lemma find_api_supported (t : pystr) (c : api_config) :
  find_api t APIS = Some c -> In t supported.
Proof.
  unfold find_api, APIS, supported.
  destruct (pystr_eqb_spec t (str "jsonplaceholder")); [simpl; auto|].
  destruct (pystr_eqb_spec t (str "randomuser")); [simpl; auto|].
  destruct (pystr_eqb_spec t (str "coingecko")); [simpl; auto|].
  discriminate.
Qed.

(** X7. A session stays bound to its profile.  After any sequence of
    fetches, however each of them ends, the session built by
    [PublicAPIFetcher(t)] still has the identifier [t], one of the three
    of the registry, and the registry's configuration for it: the
    dispatch of [display_data] always finds its formatter. *)
Theorem fetches_keep_the_profile (t : pystr) (self : fetcher)
  (nets : list http_outcome) :
  __init__ t = inr self ->
  let final := snd (fetch_all self nets) in
  api_type final = t
  /\ In t supported
  /\ find_api t APIS = Some (config final).
Proof.
  intros Hi.
  assert (H0 : api_type self = t /\ find_api t APIS = Some (config self)).
  { unfold __init__ in Hi; destruct (find_api t APIS) as [c|] eqn:E;
      inversion Hi; subst; auto. }
  assert (Hall : forall nets s,
             api_type (snd (fetch_all s nets)) = api_type s
             /\ config (snd (fetch_all s nets)) = config s).
  { clear; induction nets as [|net rest IH]; intros s; [simpl; auto|].
    rewrite fetch_all_cons; simpl.
    destruct (IH (snd (fetch_data s net))) as [-> ->].
    apply fetch_data_profile. }
  destruct H0 as [Ht Hc]; destruct (Hall nets self) as [Ha Hb].
  simpl; rewrite Ha, Hb; repeat split; auto.
  exact (find_api_supported t _ Hc).
Qed.

Lemma expected_fetch (self : fetcher) (net : http_outcome) :
  unset_or_list_of_dicts (data self) = true ->
  expected_outcome (api_type self) net ->
  (exists b, snd (fst (fetch_data self net)) = inr b)
  /\ unset_or_list_of_dicts (data (snd (fetch_data self net))) = true.
Proof.
  intros Hinv [net' Hf | r records Hs Ht Hb Hd | r m records Hs Ht Hb Hm Hd].
  - destruct (fetch_failure_returns_false self net' Hf) as [out ->].
    simpl; eauto.
  - rewrite (fetch_data_decoded self r _ (JArray records) Hs Hb);
      [simpl; eauto|].
    rewrite (pystr_eqb_neq _ _ Ht); reflexivity.
  - rewrite (fetch_data_decoded self r _ (JArray records) Hs Hb);
      [simpl; eauto|].
    rewrite Ht, pystr_eqb_refl; simpl; rewrite Hm; reflexivity.
Qed.

(** X8. As long as the server behaves as the program expects, the
    program keeps its promises.  When every outcome of a sequence of
    fetches is a failure that an [except] clause names or a response
    whose body is a list of mappings (inside [results] for "randomuser"),
    every fetch returns a boolean, none raises, and after the last one
    the store is unset or a list of mappings, as
    [self.data: Optional[List[Dict]]] announces. *)
Theorem expected_outcomes_keep_the_store_typed (self : fetcher)
  (nets : list http_outcome) :
  unset_or_list_of_dicts (data self) = true ->
  Forall (expected_outcome (api_type self)) nets ->
  Forall (fun res : result bool => exists b, res = inr b)
    (fst (fetch_all self nets))
  /\ unset_or_list_of_dicts (data (snd (fetch_all self nets))) = true.
Proof.
  revert self; induction nets as [|net rest IH]; intros self Hinv Hall.
  - simpl; auto.
  - inversion Hall as [|? ? Hnet Hrest]; subst.
    destruct (expected_fetch self net Hinv Hnet) as [Hb Hinv'].
    destruct (fetch_data_profile self net) as [Ht _].
    rewrite <- Ht in Hrest.
    destruct (IH _ Hinv' Hrest) as [Hres Hfinal].
    rewrite fetch_all_cons; simpl; split; [constructor|]; assumption.
Qed.

(* ------------------------------------------------------------------ *)
(** ** Displaying: limits, filters and stores of any shape *)

(** X9. [display_data] raises in one case only.  When the store is false
    ([None], empty, zero) it prints the no-data notice; when the store is
    a list, a mapping or a text it returns normally, whatever the filter
    and the formatters raise on the way; it raises, before printing
    anything, exactly when the store is a true value that cannot be
    iterated (a number or [True]), and what it raises is the [TypeError]
    of the iteration. *)
Theorem display_data_raises_only_on_uniterable (self : fetcher)
  (limit : option Z) (filter_func : option (json -> result json)) :
  (truthy (data self) = false ->
   display_data self limit filter_func = ([no_data_notice], inr tt))
  /\ (forall items, truthy (data self) = true ->
      py_iter (data self) = inr items ->
      snd (display_data self limit filter_func) = inr tt)
  /\ (forall e, truthy (data self) = true ->
      py_iter (data self) = inl e ->
      display_data self limit filter_func = ([], inl e)
      /\ exn_cls e = TypeError).
Proof.
  unfold display_data; split; [|split].
  - intros ->; reflexivity.
  - intros items -> ->; simpl negb; cbv iota.
    rewrite bind_call.
    destruct (display_loop self limit filter_func (enumerate 1 items) 0)
      as [out n].
    destruct (n =? 0); reflexivity.
  - intros e -> He; rewrite He; split; [reflexivity|].
    destruct (data self); simpl in He; inversion He; reflexivity.
Qed.

Lemma format_record_not_dict self idx record :
  In (api_type self) supported -> is_dict record = false ->
  format_record self idx record = ([], inl (attribute_error record "get")).
Proof.
  unfold format_record.
  intros [<-|[<-|[<-|[]]]] H; cbn [pystr_eqb]; simpl.
  - apply display_user_not_dict, H.
  - apply display_random_user_not_dict, H.
  - apply display_crypto_not_dict, H.
Qed.

Lemma display_loop_not_dicts self limit items n :
  In (api_type self) supported ->
  Forall (fun item : Z * json => is_dict (snd item) = false) items ->
  display_loop self limit None items n
  = (flat_map (fun item => record_warning (fst item)
                             (attribute_error (snd item) "get")) items, n).
Proof.
  intros Hsup Hall; revert n; induction Hall as [|[idx record] rest Hr _ IH];
    intros n; [reflexivity|].
  simpl in Hr; simpl display_loop.
  rewrite (display_record_accepted self None idx record eq_refl).
  rewrite (format_record_not_dict self idx record Hsup Hr), IH.
  reflexivity.
Qed.

Lemma enumerate_snd start items (P : json -> Prop) :
  Forall P items ->
  Forall (fun item : Z * json => P (snd item)) (enumerate start items).
Proof.
  intros H; revert start; induction H; intros start; simpl; constructor; auto.
Qed.

(** X10. Items that are not mappings never stop a display.  When the
    store can be iterated and none of its items is a mapping (a list of
    numbers, the keys of a mapping stored by mistake, the characters of a
    text), a display without filter prints, for every item in order, the
    line "(warning sign) Warning: Error processing record [i]: '[type]'
    object has no attribute 'get'" with the item's index [i] from 1 and
    the name of its type, then a line of 50 dashes; no block is printed,
    and the display ends with "No records matched the filter criteria.",
    for every limit. *)
Theorem non_mapping_items_only_warn (self : fetcher) (limit : option Z)
  (items : list json) :
  In (api_type self) supported ->
  truthy (data self) = true ->
  py_iter (data self) = inr items ->
  Forall (fun item => is_dict item = false) items ->
  display_data self limit None
  = (flat_map
       (fun item : Z * json =>
          [ [9888%N] ++ str " Warning: Error processing record "
              ++ dec (fst item) ++ str ": '" ++ type_name (snd item)
              ++ str "' object has no attribute 'get'";
            List.repeat 45%N 50 ])
       (enumerate 1 items)
       ++ [str "No records matched the filter criteria."],
     inr tt).
Proof.
  intros Hsup Ht Hi Hall; unfold display_data.
  rewrite Ht, Hi; simpl negb; cbv iota; rewrite bind_call.
  rewrite (display_loop_not_dicts self limit _ 0 Hsup
             (enumerate_snd 1 items _ Hall)).
  reflexivity.
Qed.

Lemma display_loop_negative_limit self filter_func k items n :
  k < 0 -> 0 <= n ->
  display_loop self (Some k) filter_func items n
  = display_loop self (Some 1) filter_func items n.
Proof.
  intros Hk; revert n; induction items as [|[idx record] rest IH];
    intros n Hn; simpl; [reflexivity|].
  destruct (display_record self filter_func idx record) as [out [e|[|]]];
    rewrite ?(IH n Hn); try reflexivity.
  destruct (Z.eqb_spec k 0) as [->|_]; [lia|].
  destruct (Z.leb_spec k (n + 1)); [|lia].
  destruct (Z.leb_spec 1 (n + 1)); [|lia].
  reflexivity.
Qed.

(** X11. A negative limit is a limit of one.  The test
    [limit and displayed_count >= limit] holds as soon as one record has
    been displayed, so [display_data] with any [limit < 0] prints what it
    prints with [limit = 1]: the first record that passes the filter and
    renders, and the warnings met before it. *)
Theorem negative_limit_is_limit_one (self : fetcher) (k : Z)
  (filter_func : option (json -> result json)) :
  k < 0 ->
  display_data self (Some k) filter_func = display_data self (Some 1) filter_func.
Proof.
  intros Hk; unfold display_data.
  destruct (negb (truthy (data self))); [reflexivity|].
  destruct (py_iter (data self)) as [e|items]; [reflexivity|].
  rewrite !bind_call, (display_loop_negative_limit _ _ k _ 0 Hk ltac:(lia)).
  reflexivity.
Qed.

Lemma display_loop_generous_limit self filter_func k items n :
  0 < k -> Z.of_nat (List.length items) <= k - n ->
  display_loop self (Some k) filter_func items n
  = display_loop self None filter_func items n.
Proof.
  intros Hk; revert n; induction items as [|[idx record] rest IH];
    intros n Hn; simpl; [reflexivity|].
  simpl List.length in Hn.
  destruct (display_record self filter_func idx record) as [out [e|[|]]].
  - rewrite (IH n ltac:(lia)); reflexivity.
  - destruct (Z.eqb_spec k 0) as [->|_]; [lia|]; simpl.
    destruct (Z.leb_spec k (n + 1)) as [Hle|Hgt].
    + destruct rest; [simpl; rewrite app_nil_r; reflexivity | simpl in Hn; lia].
    + rewrite (IH (n + 1) ltac:(lia)); reflexivity.
  - rewrite (IH n ltac:(lia)); reflexivity.
Qed.

Lemma py_iter_length v n :
  py_len v = inr n ->
  exists items, py_iter v = inr items /\ Z.of_nat (List.length items) = n.
Proof.
  destruct v; simpl; intros H; inversion H; subst; eexists; split;
    try reflexivity; rewrite ?length_map; reflexivity.
Qed.

(** X12. A limit that the store cannot reach changes nothing: with a
    positive [limit] at least [len(self.data)], [display_data] prints
    what it prints without a limit, for every filter. *)
Theorem generous_limit_is_no_limit (self : fetcher) (k n : Z)
  (filter_func : option (json -> result json)) :
  py_len (data self) = inr n -> 0 < k -> n <= k ->
  display_data self (Some k) filter_func = display_data self None filter_func.
Proof.
  intros Hlen Hk Hn; unfold display_data.
  destruct (negb (truthy (data self))); [reflexivity|].
  destruct (py_iter_length _ _ Hlen) as [items [-> Hl]].
  rewrite !bind_call.
  rewrite (display_loop_generous_limit self filter_func k _ 0 Hk);
    [reflexivity|].
  rewrite enumerate_length; lia.
Qed.




(* ------------------------------------------------------------------ *)
(** ** The entry point and its filter *)

Lemma city_filter_dict (m : list (pystr * json)) :
  city_filter (JObject m) =
    match dict_get m "address" (JObject []) with
    | JObject address =>
        match dict_get address "city" (JStr []) with
        | JStr city => inr (JBool (starts_with (str "S") city))
        | v => inl (attribute_error v "startswith")
        end
    | v => inl (attribute_error v "get")
    end.
Proof.
  unfold city_filter; simpl py_get.
  destruct (dict_get m "address" (JObject [])); try reflexivity.
  simpl py_get.
  destruct (dict_get _ "city" (JStr [])); reflexivity.
Qed.

Lemma starts_with_S (city : pystr) :
  starts_with (str "S") city = true <-> exists rest, city = 83%N :: rest.
Proof.
  destruct city as [|c rest].
  - split; [discriminate | intros [? H]; discriminate H].
  - change (starts_with (str "S") (c :: rest)) with (N.eqb 83 c && true).
    destruct (N.eqb_spec 83 c) as [<-|Hc].
    + split; eauto.
    + split; [discriminate | intros [? H]; inversion H; congruence].
Qed.

(** X14. The filter of [main] lets a record through exactly when the
    record is a mapping whose [address] is a mapping whose [city] is a
    text that begins with the capital letter S (code point 83).  A
    mapping whose address is absent, or a mapping without city, is
    rejected without an exception; on every record the filter either
    returns a boolean or raises [AttributeError]. *)
Theorem city_filter_accepts_cities_in_S (user : json) :
  (accepts (Some city_filter) user = true
   <-> exists rest, at_path user ["address"; "city"] = Some (JStr (83%N :: rest)))
  /\ (forall m, user = JObject m -> absent_or_dict m "address" ->
      at_path user ["address"; "city"] = None ->
      city_filter user = inr (JBool false))
  /\ ((exists b, city_filter user = inr (JBool b))
      \/ exists e, city_filter user = inl e /\ exn_cls e = AttributeError).
Proof.
  split; [|split].
  - destruct user as [| | | | | |m];
      try (split; [discriminate | intros [? H]; discriminate H]).
    unfold accepts; rewrite city_filter_dict.
    simpl at_path; unfold dict_get.
    destruct (lookup (str "address") m) as [[| | | | | |a]|];
      try (split; [discriminate | intros [? H]; discriminate H]).
    destruct (lookup (str "city") a) as [[| | | |s| |]|];
      try (split; [discriminate | intros [? H]; discriminate H]).
    unfold truthy; rewrite starts_with_S.
    split; intros [rest H]; exists rest; congruence.
  - intros m -> [d Hd]; rewrite city_filter_dict, Hd.
    revert Hd; simpl at_path; unfold dict_get.
    destruct (lookup (str "address") m) as [address|].
    + intros ->; destruct (lookup (str "city") d);
        [discriminate | reflexivity].
    + intros Hd _; inversion Hd; reflexivity.
  - destruct user as [| | | | | |m];
      try (right; eexists; split; reflexivity).
    rewrite city_filter_dict.
    destruct (dict_get m "address" (JObject [])) as [| | | | | |a];
      try (right; eexists; split; reflexivity).
    destruct (dict_get a "city" (JStr [])) as [| | | |s| |];
      try (right; eexists; split; reflexivity).
    left; eauto.
Qed.

Lemma init_jsonplaceholder :
  __init__ (str "jsonplaceholder") = inr (session "jsonplaceholder" JNull).
Proof. reflexivity. Qed.

Lemma bind_pair {A B} (out : list pystr) (a : A) (k : A -> io B) :
  bind (out, inr a) k = (out ++ fst (k a), snd (k a)).
Proof. unfold bind; destruct (k a); reflexivity. Qed.

Lemma display_data_sized self limit filter_func n :
  py_len (data self) = inr n ->
  display_data self limit filter_func
  = (fst (display_data self limit filter_func), inr tt).
Proof.
  intros Hlen.
  destruct (display_data_raises_only_on_uniterable self limit filter_func)
    as [Hfalse [Hiter _]].
  destruct (truthy (data self)) eqn:Ht.
  - destruct (py_iter_length _ _ Hlen) as [items [Hi _]].
    rewrite (surjective_pairing (display_data self limit filter_func)) at 1.
    rewrite (Hiter items eq_refl Hi); reflexivity.
  - rewrite (Hfalse eq_refl); reflexivity.
Qed.

(** X15. [main] displays only after a fetch that returned [True].  When
    [fetch_data] returns [False], [main] prints its header and what the
    fetch printed, nothing else, and returns; when [fetch_data] raises,
    [main], which has no handler, ends with that exception after the
    same output. *)
Theorem main_stops_after_failed_fetch (net : http_outcome)
  (out : list pystr) (self' : fetcher) :
  let self := session "jsonplaceholder" JNull in
  (fetch_data self net = (out, inr false, self') ->
   main net = (main_header ++ out, inr tt))
  /\ (forall e, fetch_data self net = (out, inl e, self') ->
      main net = (main_header ++ out, inl e)).
Proof.
  intros self; split; [intros H | intros e H]; unfold main;
    rewrite init_jsonplaceholder, bind_call; fold self; rewrite H;
    rewrite bind_pair; simpl; rewrite ?app_nil_r; reflexivity.
Qed.

(** X16. After every fetch that returns [True], [main] runs to its end
    without an exception: it prints its header, what the fetch printed,
    the title and the display of all records, the title and the display
    filtered by city, and the total, which is the number of records that
    the fetch reported, whatever the two displays have shown. *)
Theorem main_completes_after_successful_fetch (net : http_outcome)
  (out : list pystr) (fetcher : fetcher) :
  fetch_data (session "jsonplaceholder" JNull) net = (out, inr true, fetcher) ->
  exists n,
    py_len (data fetcher) = inr n
    /\ main net
       = (main_header ++ out
            ++ [str "DISPLAYING ALL USERS:"; dashes 70]
            ++ fst (display_data fetcher None None)
            ++ [ [10%N] ++ equals 70;
                 str "BONUS: USERS FROM CITIES STARTING WITH 'S'";
                 equals 70 ]
            ++ fst (display_data fetcher None (Some city_filter))
            ++ [ [10%N] ++ equals 70;
                 str "Total records processed: " ++ dec n;
                 equals 70 ],
          inr tt).
Proof.
  intros H.
  destruct (fetch_data_true _ _ _ _ H) as [n [Hlen _]].
  exists n; split; [exact Hlen|].
  unfold main; rewrite init_jsonplaceholder, bind_call, H.
  rewrite (display_data_sized fetcher None None n Hlen).
  rewrite (display_data_sized fetcher None (Some city_filter) n Hlen).
  rewrite (get_count_len fetcher n Hlen).
  rewrite bind_pair; cbn [fst snd].
  f_equal.
Qed.

(* ------------------------------------------------------------------ *)
(** ** What the formatters print *)

Lemma fixed_point_whole (q : Z) : 0 <= q -> fixed_point 0 q = group3 (dec q).
Proof.
  intros Hq; unfold fixed_point.
  destruct (dec_digits q Hq) as [Hne _].
  destruct (dec q) as [|d ds] eqn:E; [congruence|].
  change (S 0 - List.length (d :: ds))%nat with (0 - List.length ds)%nat.
  rewrite Nat.sub_0_l; cbn [List.repeat app].
  rewrite Nat.sub_0_r, firstn_all, app_nil_r; reflexivity.
Qed.

Lemma float_of_int_small (z : Z) :
  z <> 0 -> Z.abs z < 2 ^ 53 ->
  float_of_int z = inr (S754_finite (z <? 0) (Z.to_pos (Z.abs z)) 0).
Proof.
  intros Hz Ha; unfold float_of_int.
  destruct (Z.eqb_spec z 0) as [|_]; [congruence|].
  assert (Hpos : 0 < Z.abs z) by lia.
  assert (Hk : Z.max 0 (Z.log2 (Z.abs z) + 1 - 53) = 0).
  { assert (Z.log2 (Z.abs z) < 53) by (apply Z.log2_lt_pow2; assumption). lia. }
  rewrite Hk, Z.pow_0_r.
  assert (Hr : round_half_even (Z.abs z) 1 = Z.abs z).
  { unfold round_half_even; rewrite Z.div_1_r, Z.mod_1_r; reflexivity. }
  rewrite Hr, Z.mul_1_r.
  assert (Hlt : 2 ^ 53 < 2 ^ 1024) by (apply Z.pow_lt_mono_r; lia).
  destruct (Z.leb_spec (2 ^ 1024) (Z.abs z)); [lia | reflexivity].
Qed.

(** X17. A whole amount below [2^53] is shown digit for digit.  For an
    [int] market cap [z] with [|z| < 2^53], the line of
    [_display_crypto] is "Market Cap: $", a minus sign when [z] is
    negative, and the decimal digits of [|z|] with a comma before every
    group of three digits counted from the right: the conversion to
    [float] that [format] makes loses nothing. *)
Theorem whole_market_cap_is_exact (z : Z) :
  Z.abs z < 2 ^ 53 ->
  money_line "Market Cap" "Market Cap" 0 (JInt z)
  = inr (str "Market Cap: $" ++ (if z <? 0 then str "-" else [])
           ++ group3 (dec (Z.abs z))).
Proof.
  intros Ha; unfold money_line; cbn [is_int_or_float format_f].
  destruct (Z.eq_dec z 0) as [->|Hz]; [reflexivity|].
  rewrite (float_of_int_small z Hz Ha).
  unfold format_float.
  rewrite Z2Pos.id by lia.
  change (fixed_point 0 _) with (fixed_point 0 (Z.abs z * 1 * 1)).
  rewrite !Z.mul_1_r, (fixed_point_whole (Z.abs z) ltac:(lia)); reflexivity.
Qed.

Lemma lstrip_head (s : pystr) (c : N) :
  hd_error (lstrip s) = Some c -> is_space c = false.
Proof.
  induction s as [|x s IH]; simpl; [discriminate|].
  destruct (is_space x) eqn:E; [exact IH|].
  simpl; intros H; inversion H; subst; exact E.
Qed.

Lemma lstrip_suffix (s : pystr) :
  exists spaces,
    s = spaces ++ lstrip s /\ Forall (fun c => is_space c = true) spaces.
Proof.
  induction s as [|x s [spaces [IH Hsp]]]; simpl;
    [exists []; split; [reflexivity | constructor]|].
  destruct (is_space x) eqn:E.
  - exists (x :: spaces); simpl; split; [congruence | constructor; assumption].
  - exists []; split; [reflexivity | constructor].
Qed.

(** [strip] takes white space off both ends and nothing else. *)
Lemma strip_spec (s : pystr) :
  exists before after,
    s = before ++ strip s ++ after
    /\ Forall (fun c => is_space c = true) before
    /\ Forall (fun c => is_space c = true) after
    /\ (forall c, hd_error (strip s) = Some c \/ hd_error (rev (strip s)) = Some c ->
        is_space c = false).
Proof.
  destruct (lstrip_suffix s) as [before [Es Hb]].
  destruct (lstrip_suffix (rev (lstrip s))) as [spaces [Er Hsp]].
  assert (Et : lstrip s = strip s ++ rev spaces).
  { unfold strip; set (u := lstrip (rev (lstrip s))) in *.
    rewrite <- (rev_involutive (lstrip s)), Er, rev_app_distr; reflexivity. }
  exists before, (rev spaces); repeat split.
  - rewrite <- Et; exact Es.
  - exact Hb.
  - apply Forall_rev; exact Hsp.
  - intros c [H|H].
    + apply (lstrip_head s); rewrite Et.
      destruct (strip s); [discriminate | exact H].
    + unfold strip in H; rewrite rev_involutive in H.
      exact (lstrip_head _ _ H).
Qed.

(** X18. The name that [_display_random_user] shows is the text of the
    first part, a space and the text of the last part (absent parts
    being empty) with the white space taken off both ends, and "N/A"
    when nothing is left: it is never empty and never begins or ends with
    white space, so that a record with only a last name shows that name
    with no space before it. *)
Theorem displayed_name_is_trimmed (name_obj : list (pystr * json)) :
  let joined := py_str (dict_get name_obj "first" (JStr [])) ++ str " "
                  ++ py_str (dict_get name_obj "last" (JStr [])) in
  let shown := py_str (full_name name_obj) in
  exists before core after,
    joined = before ++ core ++ after
    /\ Forall (fun c => is_space c = true) before
    /\ Forall (fun c => is_space c = true) after
    /\ (forall c, hd_error core = Some c \/ hd_error (rev core) = Some c ->
        is_space c = false)
    /\ shown = match core with
               | [] => str "N/A"
               | _ => core
               end
    /\ shown <> [].
Proof.
  intros joined shown.
  destruct (strip_spec joined) as [before [after [E [Hb [Ha Hends]]]]].
  exists before, (strip joined), after.
  split; [exact E | split; [exact Hb | split; [exact Ha | split; [exact Hends|]]]].
  unfold shown, full_name; fold joined.
  destruct (strip joined) as [|c rest]; split; try reflexivity; discriminate.
Qed.

End Further.

(* ================================================================== *)
(** * The properties on concrete sessions *)

#[local] Existing Instance example_runtime.

Lemma init_supported_or_invalid_witness :
  In (str "coingecko") supported
  /\ ~ In (str "bitcoin") supported
  /\ __init__ (str "coingecko") = inr (session "coingecko" JNull)
  /\ exists msg, __init__ (str "bitcoin") = inl (mkExn ValueError msg None).
Proof.
  assert (H1 : In (str "coingecko") supported) by (simpl; auto).
  assert (H2 : ~ In (str "bitcoin") supported).
  { intros [H|[H|[H|[]]]]; cbv in H; discriminate H. }
  split; [exact H1 | split; [exact H2 | split]].
  - destruct (proj1 (init_supported_or_invalid (str "coingecko")) H1)
      as [c [Hc Hi]].
    rewrite Hi; unfold session; rewrite Hc; reflexivity.
  - eexists; exact (proj2 (init_supported_or_invalid (str "bitcoin")) H2).
Defined.

Lemma fetch_failure_keeps_store_witness :
  let self := session "jsonplaceholder" JNull in
  fetch_failure (Responded (server_error self))
  /\ snd (fst (fetch_data self (Responded (server_error self)))) = inr false
  /\ snd (fetch_data self (Responded (server_error self))) = self
  /\ display_data (snd (fetch_data self (Responded (server_error self)))) None None
     = ([no_data_notice], inr tt).
Proof.
  intros self.
  assert (H : fetch_failure (Responded (server_error self)))
    by (apply http_status_error; simpl; lia).
  split; [exact H|].
  destruct (fetch_failure_keeps_store self _ H) as [out [self' [E [Hs Hd]]]].
  rewrite E; simpl; repeat split; [exact Hs | apply Hd; reflexivity].
Defined.

(** C2, as the claim states it, fails on a session whose previous fetch
    succeeded: the fetch that meets status 500 returns [False], but the
    store still holds the record of the first fetch, and the display that
    follows prints that record's block, not the no-data notice. *)
Lemma stale_records_after_failed_fetch :
  let self0 := session "jsonplaceholder" JNull in
  let self1 := snd (fetch_data self0 (Responded (ok_response self0 (JArray [leanne])))) in
  let self2 := snd (fetch_data self1 (Responded (server_error self1))) in
  __init__ (str "jsonplaceholder") = inr self0
  /\ snd (fst (fetch_data self0 (Responded (ok_response self0 (JArray [leanne])))))
     = inr true
  /\ snd (fst (fetch_data self1 (Responded (server_error self1)))) = inr false
  /\ data self2 = JArray [leanne]
  /\ data self2 <> JNull
  /\ display_data self2 None None
     = ([ str "User 1:"; str "Name: Leanne Graham"; str "Username: Bret";
          str "Email: a@b.com"; str "City: Gwenborough"; dashes 24 ], inr tt)
  /\ display_data self2 None None <> ([no_data_notice], inr tt).
Proof.
  repeat split; try (vm_compute; reflexivity);
    vm_compute; intros H; discriminate H.
Qed.

Lemma fetch_success_stores_witness :
  let self := session "randomuser" JNull in
  let members := [(str "results", JArray [leanne])] in
  let r := ok_response self (JObject members) in
  200 <= status_code r < 300
  /\ body r = inr (JObject members)
  /\ fetch_data self (Responded r)
     = ([ str "Fetching data from Random User Generator API...";
          str "URL: https://randomuser.me/api/?results=10" ++ [10%N];
          [10003%N] ++ str " Successfully fetched 1 records." ++ [10%N] ],
        inr true, set_data self (JArray [leanne])).
Proof.
  intros self members r.
  assert (Hs : 200 <= status_code r < 300) by (simpl; lia).
  assert (Hb : body r = inr (JObject members)) by reflexivity.
  split; [exact Hs | split; [exact Hb|]].
  exact (proj2 (proj1 (fetch_success_stores self r (JObject members) Hs Hb)
                  eq_refl members eq_refl) 1 eq_refl).
Defined.

(** C3, as the claim states it, fails on a 2xx response whose decoded
    body leaves the store without a length: with "jsonplaceholder" and
    the body [5], and with "randomuser" and the body
    [{"results": null}], the value is stored, [len] raises [TypeError],
    no count is printed and the fetch does not return. *)
Lemma unsized_body_is_no_success :
  (let self := session "jsonplaceholder" JNull in
   __init__ (str "jsonplaceholder") = inr self
   /\ fetch_data self (Responded (ok_response self (JInt 5)))
      = ([ str "Fetching data from JSONPlaceholder Users API...";
           str "URL: https://jsonplaceholder.typicode.com/users" ++ [10%N] ],
         inl (mkExn TypeError (str "object of type 'int' has no len()") None),
         set_data self (JInt 5)))
  /\
  (let self := session "randomuser" JNull in
   __init__ (str "randomuser") = inr self
   /\ fetch_data self
        (Responded (ok_response self (dict [("results", JNull)])))
      = ([ str "Fetching data from Random User Generator API...";
           str "URL: https://randomuser.me/api/?results=10" ++ [10%N] ],
         inl (mkExn TypeError (str "object of type 'NoneType' has no len()") None),
         set_data self JNull)).
Proof. repeat split; vm_compute; reflexivity. Qed.

Lemma display_data_limit_zero_witness :
  let records := [leanne; no_address; sam] in
  let self := session "jsonplaceholder" (JArray records) in
  data self = JArray records
  /\ records <> []
  /\ Forall (renders self) (enumerate 1 records)
  /\ display_data self (Some 0) None
     = (block self (1, leanne) ++ block self (2, no_address)
          ++ block self (3, sam), inr tt)
  /\ block self (3, sam)
     = [ str "User 3:"; str "Name: Sam Hill"; str "Username: sam";
         str "Email: s@h.io"; str "City: South Elvis";
         str "------------------------" ]
  /\ display_data self (Some 0) (predicate lacks_address)
     = (block self (2, no_address), inr tt).
Proof.
  intros records self.
  assert (Hd : data self = JArray records) by reflexivity.
  assert (Hne : records <> []) by discriminate.
  assert (Hall : Forall (renders self) (enumerate 1 records))
    by (repeat constructor).
  destruct (proj2 (display_data_limit_zero self) records Hd Hne)
    as [Ha [Hb _]].
  split; [exact Hd | split; [exact Hne | split; [exact Hall |
    split; [|split]]]].
  - rewrite (Ha Hall); reflexivity.
  - reflexivity.
  - rewrite (Hb lacks_address ltac:(repeat constructor)); reflexivity.
Defined.

Lemma display_data_blocks_witness :
  let records := [leanne; no_address; leanne] in
  let self := session "jsonplaceholder" (JArray records) in
  data self = JArray records
  /\ records <> []
  /\ Forall (renders self) (enumerate 1 records)
  /\ 0 < 2 < Z.of_nat (List.length records)
  /\ display_data self None None
     = (block self (1, leanne) ++ block self (2, no_address)
          ++ block self (3, leanne),
        inr tt)
  /\ display_data self (Some 2) None
     = (block self (1, leanne) ++ block self (2, no_address), inr tt)
  /\ display_data self (Some 1) (predicate lacks_address)
     = (block self (2, no_address), inr tt).
Proof.
  intros records self.
  assert (Hd : data self = JArray records) by reflexivity.
  assert (Hne : records <> []) by discriminate.
  assert (Hall : Forall (renders self) (enumerate 1 records))
    by (repeat constructor).
  assert (Hk : 0 < 2 < Z.of_nat (List.length records)) by (simpl; lia).
  destruct (display_data_blocks self records Hd Hne) as [Ha [Hb Hc]].
  split; [exact Hd | split; [exact Hne | split; [exact Hall |
    split; [exact Hk | split; [|split]]]]].
  - rewrite (proj1 (Ha Hall)); reflexivity.
  - rewrite (Hb 2 Hk); [reflexivity | repeat constructor].
  - match goal with
    | |- display_data _ _ (predicate ?p) = _ =>
        destruct (Hc p (Some 1)) as [_ Hdisp]
    end.
    + right; exists 1; split; [reflexivity | lia].
    + repeat constructor.
    + rewrite Hdisp; reflexivity.
Defined.

Lemma render_error_is_isolated_witness :
  let self := session "coingecko" (JArray [bitcoin; delisted; bitcoin]) in
  let e := attribute_error JNull "upper" in
  accepts None delisted = true
  /\ format_record self 2 delisted = ([], inl e)
  /\ display_data self None None
     = (block self (1, bitcoin)
          ++ [ [9888%N]
                 ++ str " Warning: Error processing record 2: 'NoneType' object has no attribute 'upper'";
               str "--------------------------------------------------" ]
          ++ block self (3, bitcoin),
        inr tt).
Proof.
  intros self e.
  assert (Ha : accepts None delisted = true) by reflexivity.
  assert (Hf : format_record self 2 delisted = ([], inl e)) by reflexivity.
  split; [exact Ha | split; [exact Hf|]].
  pose proof (proj2 (render_error_is_isolated self None 2 delisted [] e Ha Hf)
                [bitcoin] [bitcoin] eq_refl eq_refl) as H.
  vm_compute in H; vm_compute; exact H.
Defined.

Lemma missing_fields_render_placeholder_witness :
  let m := match no_address with JObject m => m | _ => [] end in
  absent_or_dict m "address"
  /\ Forall (fun line => encodable utf8 line = true)
       (fst (_display_user 2 (JObject m)))
  /\ at_path (JObject m) ["address"; "city"] = None
  /\ on_console utf8 (_display_user 2 (JObject m))
     = ([ str "User 2:"; str "Name: Ervin Howell"; str "Username: Antonette";
          str "Email: e@h.org"; str "City: N/A";
          str "------------------------" ], inr tt).
Proof.
  intros m.
  assert (Ha : absent_or_dict m "address") by (exists []; reflexivity).
  assert (He : Forall (fun line => encodable utf8 line = true)
                 (fst (_display_user 2 (JObject m))))
    by (repeat constructor).
  assert (Hp : at_path (JObject m) ["address"; "city"] = None) by reflexivity.
  split; [exact Ha | split; [exact He | split; [exact Hp|]]].
  destruct (proj1 (missing_fields_render_placeholder utf8 2 m) Ha He)
    as [l1 [l2 [l3 [l4 [E [_ [_ [_ H4]]]]]]]].
  rewrite E, (H4 Hp).
  rewrite (on_console_encodable utf8 _ He) in E.
  inversion E; reflexivity.
Defined.

(** C6, as the claim states it, fails on a jsonplaceholder record whose
    [address] is [null]: the field city is missing, and the formatter
    raises instead of printing "City: N/A"; the display prints the
    warning for the record and no block.  It fails one level down in a
    randomuser record: with [name.first] missing the name line shows the
    last name alone, not "N/A".  And it fails on a record whose name is a
    lone surrogate (the JSON text "\ud83d"), where username, email and
    city are missing: on a UTF-8 console [print] raises
    [UnicodeEncodeError] after the heading. *)
Lemma missing_city_under_null_address_raises :
  let record := dict [("name", JStr (str "Ervin Howell")); ("address", JNull)] in
  let self := session "jsonplaceholder" (JArray [record]) in
  at_path record ["address"; "city"] = None
  /\ _display_user 1 record = ([], inl (attribute_error JNull "get"))
  /\ display_data self None None
     = ([ [9888%N] ++ str " Warning: Error processing record 1: "
            ++ str "'NoneType' object has no attribute 'get'";
          List.repeat 45%N 50;
          str "No records matched the filter criteria." ],
        inr tt)
  /\ (let user := dict [("name", dict [("last", JStr (str "Smith"))])] in
      at_path user ["name"; "first"] = None
      /\ nth_error (fst (_display_random_user 1 user)) 1
         = Some (str "Name: Smith"))
  /\ (let user := dict [("name", JStr [55357%N])] in
      at_path user ["email"] = None
      /\ on_console utf8 (_display_user 1 user)
         = ([str "User 1:"],
            inl (mkExn UnicodeEncodeError
                   (str "'utf-8' codec can't encode character '"
                      ++ [92%N; 117%N]
                      ++ str "d83d' in position 6: surrogates not allowed")
                   None))).
Proof. repeat split; vm_compute; reflexivity. Qed.

Lemma display_crypto_lines_witness :
  let m := match bitcoin with JObject m => m | _ => [] end in
  dict_get m "symbol" NA = JStr (str "btc")
  /\ fits_float (dict_get m "current_price" (JInt 0))
  /\ fits_float (dict_get m "market_cap" (JInt 0))
  /\ Forall (fun line => encodable utf8 line = true)
       (fst (_display_crypto 1 (JObject m)))
  /\ exists price_line cap_line,
       on_console utf8 (_display_crypto 1 (JObject m))
       = ([ str "Crypto 1:"; str "Name: Bitcoin"; str "Symbol: BTC";
            price_line; cap_line; str "------------------------" ], inr tt)
       /\ currency_or_raw "Current Price" 2
            (JFloat (S754_finite false 86501 (-1))) price_line
       /\ currency_or_raw "Market Cap" 0 (JInt 850000000) cap_line
       /\ price_line = str "Current Price: $43,250.50"
       /\ cap_line = str "Market Cap: $850,000,000".
Proof.
  intros m.
  assert (Hs : dict_get m "symbol" NA = JStr (str "btc")) by reflexivity.
  assert (Hp : fits_float (dict_get m "current_price" (JInt 0))) by exact I.
  assert (Hc : fits_float (dict_get m "market_cap" (JInt 0)))
    by (vm_compute; reflexivity).
  assert (He : Forall (fun line => encodable utf8 line = true)
                 (fst (_display_crypto 1 (JObject m))))
    by (repeat constructor).
  split; [exact Hs | split; [exact Hp | split; [exact Hc | split; [exact He|]]]].
  destruct (display_crypto_lines utf8 1 m (str "btc") Hs Hp Hc He)
    as [[price_line [cap_line [E [H1 H2]]]] Hex].
  exists price_line, cap_line.
  split; [exact E | split; [exact H1 | split; [exact H2|]]].
  change (JObject m) with bitcoin in E; rewrite Hex in E.
  inversion E; split; reflexivity.
Defined.

(** C7, as the claim states it, fails on a coingecko record whose symbol
    is [null]: [None.upper()] raises and no line of the block is printed.
    It fails too when market_cap is the integer [10^400]: the value is
    numeric, [format] raises [OverflowError] after four lines, and no
    market cap is shown.  The JSON value [true] as current_price is
    shown as the amount 1.00, not as the text of the value.  And a
    current_price that is the [float] infinity (the JSON text [1e999]) is
    shown as "$inf", with no decimals. *)
Lemma null_symbol_is_not_rendered :
  _display_crypto 1 delisted = ([], inl (attribute_error JNull "upper"))
  /\ _display_crypto 1
       (dict [("symbol", JStr (str "btc")); ("market_cap", JInt (10 ^ 400))])
     = ([ str "Crypto 1:"; str "Name: N/A"; str "Symbol: BTC";
          str "Current Price: $0.00" ],
        inl (mkExn OverflowError (str "int too large to convert to float") None))
  /\ nth_error
       (fst (_display_crypto 1
               (dict [("symbol", JStr (str "btc")); ("current_price", JBool true)])))
       3
     = Some (str "Current Price: $1.00")
  /\ nth_error
       (fst (_display_crypto 1
               (dict [("symbol", JStr (str "btc"));
                      ("current_price", JFloat (S754_infinity false))])))
       3
     = Some (str "Current Price: $inf").
Proof. repeat split; vm_compute; reflexivity. Qed.

(* ------------------------------------------------------------------ *)
(** ** The further properties on concrete sessions *)

Lemma get_count_is_reported_count_witness :
  let self := session "jsonplaceholder" JNull in
  let records := JArray [leanne; no_address] in
  let net := Responded (ok_response self records) in
  fetch_data self net
  = (fetch_banner self ++ [success_line 2], inr true, set_data self records)
  /\ exists n, get_count (set_data self records) = inr n
               /\ py_len records = inr n.
Proof.
  intros self records net.
  assert (H : fetch_data self net
              = (fetch_banner self ++ [success_line 2], inr true,
                 set_data self records)) by reflexivity.
  split; [exact H|].
  destruct (proj1 (get_count_is_reported_count self net _ _ H))
    as [n [Hg [Hl _]]].
  exists n; split; assumption.
Defined.

Lemma empty_fetch_shows_no_data_witness :
  let self := session "jsonplaceholder" JNull in
  let r := ok_response self (JArray []) in
  ~ 400 <= status_code r < 600
  /\ api_type self <> str "randomuser"
  /\ body r = inr (JArray [])
  /\ display_data (set_data self (JArray [])) (Some 3) (Some city_filter)
     = ([no_data_notice], inr tt).
Proof.
  intros self r.
  assert (Hs : ~ 400 <= status_code r < 600) by (simpl; lia).
  assert (Ht : api_type self <> str "randomuser")
    by (intros H; vm_compute in H; discriminate H).
  assert (Hb : body r = inr (JArray [])) by reflexivity.
  split; [exact Hs | split; [exact Ht | split; [exact Hb|]]].
  exact (proj1 (proj2 (empty_fetch_shows_no_data self r Hs
                         (or_introl (conj Ht Hb))))
           (Some 3) (Some city_filter)).
Defined.

Lemma failed_len_leaves_body_in_store_witness :
  let self := session "coingecko" (JArray [bitcoin]) in
  let r := ok_response self (JInt 5) in
  let e := mkExn TypeError (str "object of type 'int' has no len()") None in
  ~ 400 <= status_code r < 600
  /\ body r = inr (JInt 5)
  /\ api_type self <> str "randomuser"
  /\ py_len (JInt 5) = inl e
  /\ data (snd (fetch_data self (Responded r))) = JInt 5.
Proof.
  intros self r e.
  assert (Hs : ~ 400 <= status_code r < 600) by (simpl; lia).
  assert (Hb : body r = inr (JInt 5)) by reflexivity.
  assert (Ht : api_type self <> str "randomuser")
    by (intros H; vm_compute in H; discriminate H).
  assert (He : py_len (JInt 5) = inl e) by reflexivity.
  split; [exact Hs | split; [exact Hb | split; [exact Ht | split; [exact He|]]]].
  exact (proj2 (proj2 (failed_len_leaves_body_in_store self r (JInt 5) e
                         Hs Hb Ht He))).
Defined.

Lemma http_error_reports_status_witness :
  let self := session "jsonplaceholder" JNull in
  400 <= status_code (server_error self) < 600
  /\ exists kind,
       (kind = "Client" \/ kind = "Server")
       /\ fetch_data self (Responded (server_error self))
          = (fetch_banner self
               ++ [ cross_mark ++ str " Error: HTTP error occurred: "
                      ++ dec 500 ++ str " " ++ str kind
                      ++ str " Error: " ++ str "Internal Server Error"
                      ++ str " for url: " ++ url (config self);
                    str "  Status Code: " ++ dec 500 ],
             inr false, self).
Proof.
  intros self.
  assert (H : 400 <= status_code (server_error self) < 600) by (simpl; lia).
  split; [exact H|].
  exact (http_error_reports_status self (server_error self) H).
Defined.

Lemma except_clauses_in_order_witness :
  let self := session "jsonplaceholder" JNull in
  let e := mkExn ConnectTimeout (str "timed out") None in
  isinstance e Timeout = true
  /\ isinstance e ConnectionError = true
  /\ fetch_data self (GetRaised e)
     = (fetch_banner self
          ++ [cross_mark ++ str " Error: Request timed out. Please check your internet connection."],
        inr false, self).
Proof.
  intros self e.
  assert (H : isinstance e Timeout = true) by reflexivity.
  split; [exact H | split; [reflexivity|]].
  exact (proj1 (except_clauses_in_order self) e H).
Defined.

Lemma status_matters_only_from_400_to_599_witness :
  let self := session "jsonplaceholder" JNull in
  let r := mkResponse 200 (str "OK") (url (config self)) (inr (JArray [leanne])) in
  let r' := mkResponse 304 (str "Not Modified") (url (config self))
              (inr (JArray [leanne])) in
  ~ 400 <= status_code r < 600
  /\ ~ 400 <= status_code r' < 600
  /\ body r = body r'
  /\ fetch_data self (Responded r) = fetch_data self (Responded r').
Proof.
  intros self r r'.
  assert (H : ~ 400 <= status_code r < 600) by (simpl; lia).
  assert (H' : ~ 400 <= status_code r' < 600) by (simpl; lia).
  assert (Hb : body r = body r') by reflexivity.
  split; [exact H | split; [exact H' | split; [exact Hb|]]].
  exact (status_matters_only_from_400_to_599 self r r' H H' Hb).
Defined.

Lemma fetches_keep_the_profile_witness :
  let self := session "coingecko" JNull in
  let nets := [ Responded (server_error self);
                Responded (ok_response self (JInt 5));
                GetRaised (mkExn AttributeError [] None) ] in
  __init__ (str "coingecko") = inr self
  /\ api_type (snd (fetch_all self nets)) = str "coingecko".
Proof.
  intros self nets.
  assert (H : __init__ (str "coingecko") = inr self) by reflexivity.
  split; [exact H|].
  exact (proj1 (fetches_keep_the_profile (str "coingecko") self nets H)).
Defined.

Lemma expected_outcomes_keep_the_store_typed_witness :
  let self := session "jsonplaceholder" JNull in
  let nets := [ Responded (ok_response self (JArray [leanne; sam]));
                Responded (server_error self) ] in
  unset_or_list_of_dicts (data self) = true
  /\ Forall (expected_outcome (api_type self)) nets
  /\ unset_or_list_of_dicts (data (snd (fetch_all self nets))) = true.
Proof.
  intros self nets.
  assert (Hi : unset_or_list_of_dicts (data self) = true) by reflexivity.
  assert (Hn : Forall (expected_outcome (api_type self)) nets).
  { constructor; [|constructor; [|constructor]].
    - apply (expected_list _ _ [leanne; sam]);
        [simpl; lia | intros H; vm_compute in H; discriminate H
        | reflexivity | reflexivity].
    - apply expected_failure, http_status_error; simpl; lia. }
  split; [exact Hi | split; [exact Hn|]].
  exact (proj2 (expected_outcomes_keep_the_store_typed self nets Hi Hn)).
Defined.

Lemma display_data_raises_only_on_uniterable_witness :
  let self := session "jsonplaceholder" (JInt 5) in
  let e := mkExn TypeError (str "'int' object is not iterable") None in
  truthy (data self) = true
  /\ py_iter (data self) = inl e
  /\ display_data self None None = ([], inl e).
Proof.
  intros self e.
  assert (Ht : truthy (data self) = true) by reflexivity.
  assert (Hi : py_iter (data self) = inl e) by reflexivity.
  split; [exact Ht | split; [exact Hi|]].
  exact (proj1 (proj2 (proj2 (display_data_raises_only_on_uniterable
                                self None None)) e Ht Hi)).
Defined.

Lemma non_mapping_items_only_warn_witness :
  let body := dict [("error", JStr (str "rate limited"))] in
  let self := session "jsonplaceholder" body in
  In (api_type self) supported
  /\ truthy (data self) = true
  /\ py_iter (data self) = inr [JStr (str "error")]
  /\ Forall (fun item => is_dict item = false) [JStr (str "error")]
  /\ display_data self (Some 1) None
     = ([ [9888%N]
            ++ str " Warning: Error processing record 1: 'str' object has no attribute 'get'";
          str "--------------------------------------------------";
          str "No records matched the filter criteria." ],
        inr tt).
Proof.
  intros body self.
  assert (Hs : In (api_type self) supported) by (simpl; auto).
  assert (Ht : truthy (data self) = true) by reflexivity.
  assert (Hi : py_iter (data self) = inr [JStr (str "error")]) by reflexivity.
  assert (Hd : Forall (fun item => is_dict item = false) [JStr (str "error")])
    by (repeat constructor).
  split; [exact Hs | split; [exact Ht | split; [exact Hi | split; [exact Hd|]]]].
  rewrite (non_mapping_items_only_warn self (Some 1) _ Hs Ht Hi Hd).
  reflexivity.
Defined.

Lemma negative_limit_is_limit_one_witness :
  let self := session "jsonplaceholder" (JArray [leanne; no_address]) in
  -3 < 0
  /\ display_data self (Some (-3)) None = (block self (1, leanne), inr tt).
Proof.
  intros self.
  assert (H : -3 < 0) by lia.
  split; [exact H|].
  rewrite (negative_limit_is_limit_one self (-3) None H); reflexivity.
Defined.

Lemma generous_limit_is_no_limit_witness :
  let self := session "jsonplaceholder" (JArray [leanne; no_address]) in
  py_len (data self) = inr 2
  /\ 0 < 5 /\ 2 <= 5
  /\ display_data self (Some 5) None = display_data self None None.
Proof.
  intros self.
  assert (Hl : py_len (data self) = inr 2) by reflexivity.
  assert (Hk : 0 < 5) by lia.
  assert (Hn : 2 <= 5) by lia.
  split; [exact Hl | split; [exact Hk | split; [exact Hn|]]].
  exact (generous_limit_is_no_limit self 5 2 None Hl Hk Hn).
Defined.


Lemma city_filter_accepts_cities_in_S_witness :
  at_path sam ["address"; "city"] = Some (JStr (83%N :: str "outh Elvis"))
  /\ accepts (Some city_filter) sam = true
  /\ city_filter no_address = inr (JBool false).
Proof.
  assert (H : at_path sam ["address"; "city"]
              = Some (JStr (83%N :: str "outh Elvis"))) by reflexivity.
  split; [exact H | split].
  - exact (proj2 (proj1 (city_filter_accepts_cities_in_S sam))
             (ex_intro _ _ H)).
  - apply (proj1 (proj2 (city_filter_accepts_cities_in_S no_address))
             _ eq_refl); [exists []; reflexivity | reflexivity].
Defined.

Lemma main_stops_after_failed_fetch_witness :
  let self := session "jsonplaceholder" JNull in
  let net := Responded (server_error self) in
  let out := fst (fst (fetch_data self net)) in
  fetch_data self net = (out, inr false, self)
  /\ main net = (main_header ++ out, inr tt).
Proof.
  intros self net out.
  assert (H : fetch_data self net = (out, inr false, self)) by reflexivity.
  split; [exact H|].
  exact (proj1 (main_stops_after_failed_fetch net out self) H).
Defined.

Lemma main_completes_after_successful_fetch_witness :
  let self := session "jsonplaceholder" JNull in
  let net := Responded (ok_response self (JArray [leanne; sam])) in
  let fetcher := set_data self (JArray [leanne; sam]) in
  fetch_data self net
  = (fetch_banner self ++ [success_line 2], inr true, fetcher)
  /\ snd (main net) = inr tt.
Proof.
  intros self net fetcher.
  assert (H : fetch_data self net
              = (fetch_banner self ++ [success_line 2], inr true, fetcher))
    by reflexivity.
  split; [exact H|].
  destruct (main_completes_after_successful_fetch net _ fetcher H)
    as [n [_ E]].
  rewrite E; reflexivity.
Defined.

Lemma whole_market_cap_is_exact_witness :
  Z.abs 850000000 < 2 ^ 53
  /\ money_line "Market Cap" "Market Cap" 0 (JInt 850000000)
     = inr (str "Market Cap: $850,000,000").
Proof.
  assert (H : Z.abs 850000000 < 2 ^ 53) by (vm_compute; reflexivity).
  split; [exact H|].
  rewrite (whole_market_cap_is_exact 850000000 H); reflexivity.
Defined.

Lemma displayed_name_is_trimmed_witness :
  let name_obj := [(str "last", JStr (str "Smith"))] in
  py_str (full_name name_obj) = str "Smith"
  /\ exists before core after,
       str " Smith" = before ++ core ++ after
       /\ Forall (fun c => is_space c = true) before
       /\ Forall (fun c => is_space c = true) after
       /\ (forall c, hd_error core = Some c \/ hd_error (rev core) = Some c ->
           is_space c = false)
       /\ str "Smith" = match core with
                        | [] => str "N/A"
                        | _ => core
                        end
       /\ str "Smith" <> [].
Proof.
  intros name_obj; split; [reflexivity|].
  exact (displayed_name_is_trimmed name_obj).
Defined.
